(** * data_loader.py: encoders, cache, dataset loader and pooling

    A shallow embedding of [metadata-classification/data_loader.py].
    Python exceptions are values of [exn]; a computation that may raise
    returns a [result].  The numbers of an embedding vector are
    floating-point values, every one of which is a rational ([Q]): [max]
    and [min] return one of their arguments and are exact, the mean that
    [np.average] computes is rounded and is a parameter of the model
    ([Numpy]).  NaN and the infinities do not occur in the model. *)

From Stdlib Require Import Ascii String OrderedTypeEx QArith Qminmax.
From stdpp Require Import base option list strings gmap sorting.

Open Scope string_scope.
Open Scope list_scope.

(** ** Exceptions and results *)

Inductive exn : Type :=
  | ValueError (msg : string)
  | TypeError (msg : string)
  | IndexError (msg : string)
  | KeyError (key : string)
  | AttributeError (msg : string)
  | FileNotFoundError (path : string)
  | NotADirectoryError (path : string)
  | FileExistsError (path : string)
  | NotImplementedError (msg : string)
  | RuntimeWarning (msg : string)
  | OSError (msg : string).

Inductive result (A : Type) : Type :=
  | Ok (a : A)
  | Raise (e : exn).
Arguments Ok {A} a.
Arguments Raise {A} e.

Definition bind {A B : Type} (r : result A) (k : A -> result B) : result B :=
  match r with
  | Ok a => k a
  | Raise e => Raise e
  end.

Declare Scope py_scope.
Delimit Scope py_scope with py.
Notation "'let*' x := r 'in' k" := (bind r (fun x => k))
  (at level 10, x name, r at level 100, k at level 200) : py_scope.
Open Scope py_scope.

(** A list comprehension whose body may raise: the elements are evaluated
    from left to right and the first exception aborts the comprehension. *)
Fixpoint comprehension {A B : Type} (f : A -> result B) (l : list A) : result (list B) :=
  match l with
  | [] => Ok []
  | x :: xs =>
      let* y := f x in
      let* ys := comprehension f xs in
      Ok (y :: ys)
  end.

(** ** Strings: [in] and [str.split] for a one-character separator *)

Definition slash : ascii := "/"%char.

(** [c in s] *)
Fixpoint contains (c : ascii) (s : string) : bool :=
  match s with
  | EmptyString => false
  | String a rest => if Ascii.eqb a c then true else contains c rest
  end.

(** [s.split(c)]: every occurrence of [c] ends a segment; the result is
    never empty. *)
Fixpoint split (c : ascii) (s : string) : list string :=
  match s with
  | EmptyString => [""]
  | String a rest =>
      if Ascii.eqb a c then "" :: split c rest
      else match split c rest with
           | [] => [String a ""]
           | seg :: segs => String a seg :: segs
           end
  end.

(** [l[i]] on a Python list *)
Definition subscript {A : Type} (l : list A) (i : nat) : result A :=
  match l !! i with
  | Some x => Ok x
  | None => Raise (IndexError "list index out of range")
  end.

(** ** The encoder classes

    [GeneralEncoder] and its three children.  A method that a child does
    not override is inherited from [GeneralEncoder]. *)

Inductive encoder_class : Type :=
  | GeneralEncoder
  | FlairEncoder
  | FastTextEncoder
  | Word2VecEncoder.

(** The Hugging Face classes [get_embedder] names. *)
Inductive hf_model : Type := TransfoXLModel | XLMModel | XLNetModel.
Inductive hf_tokenizer : Type := TransfoXLTokenizer | XLMTokenizer | XLNetTokenizer.

(** What [get_embedder] returns: the constructor call that built the
    embedder, with its arguments.  [Pretrained] is the dictionary
    [{'model': M.from_pretrained(m), 'tokenizer': T.from_pretrained(t)}].
    The model records the call; loading or training, which the libraries
    can refuse with an exception of their own, is not run.  A statement
    about a run that goes on after [get_embedder] takes its returning as
    a hypothesis. *)
Inductive embedder : Type :=
  | Pretrained (M : hf_model) (m : string) (T : hf_tokenizer) (t : string)
  | TransformerWordEmbeddings (name : option string)
  | FastText (names : list string)
  | Word2Vec (names : list string).

Definition not_implemented : string :=
  "This function should be implemented in the children encoders".

(** [get_embedding_dir(self, embedding)]; [embedding] is [None] when the
    encoder was constructed without one. *)
Definition get_embedding_dir (cls : encoder_class) (embedding : option string)
  : result string :=
  match cls with
  | FastTextEncoder => Ok "fasttext"
  | Word2VecEncoder => Ok "word2vec"
  | GeneralEncoder | FlairEncoder =>
      match embedding with
      | None => Raise (TypeError "argument of type 'NoneType' is not iterable")
      | Some embedding =>
          if contains slash embedding
          then subscript (split slash embedding) 1
          else Ok embedding
      end
  end.

(** [get_embedder(self)]; [names] is [self.df['name'].to_list()]. *)
Definition get_embedder (cls : encoder_class) (embedding : option string)
    (names : list string) : result embedder :=
  match cls with
  | GeneralEncoder => Raise (ValueError not_implemented)
  | FlairEncoder =>
      if bool_decide (embedding = Some "transfo-xl-wt103") then
        Ok (Pretrained TransfoXLModel "transfo-xl-wt103"
                       TransfoXLTokenizer "transfo-xl-wt103")
      else if bool_decide (embedding = Some "xlm-mlm-en-2048") then
        Ok (Pretrained XLMModel "transfo-xl-wt103"
                       XLMTokenizer "transfo-xl-wt103")
      else if bool_decide (embedding = Some "xlnet-base-cased") then
        Ok (Pretrained XLNetModel "transfo-xl-wt103"
                       XLNetTokenizer "transfo-xl-wt103")
      else Ok (TransformerWordEmbeddings embedding)
  | FastTextEncoder => Ok (FastText names)
  | Word2VecEncoder => Ok (Word2Vec names)
  end.

(** ** Tables

    A pandas DataFrame with the columns [name] and [type] and, once an
    encoder has run, the column [embedding].  A cell of that column holds
    what [create_embedding] returned (sentences of token vectors) or what
    [pooling] returned (one vector). *)

Definition token_vector : Type := list Q.
Definition EmbeddingVector : Type := list (list token_vector).

Inductive cell : Type :=
  | Sentences (vector : EmbeddingVector)
  | Pooled (vector : list Q).

Record DataFrame : Type := mkDataFrame {
  rows : list (string * string);
  embedding : option (list cell)
}.

(** [df['name'].to_list()] *)
Definition name_column (df : DataFrame) : list string := map fst (rows df).

(** [df['embedding'] = column] and [df.embedding = column] *)
Definition set_embedding (df : DataFrame) (column : list cell) : DataFrame :=
  {| rows := rows df; embedding := Some column |}.

(** ** Libraries

    nltk, transformers, flair, gensim and the operating system are not
    part of the repository: their functions are parameters of the model. *)

Record libraries : Type := mkLibraries {
  (** [nltk.tokenize.sent_tokenize] *)
  sent_tokenize : string -> list string;
  (** [nltk.word_tokenize] *)
  word_tokenize : string -> list string;
  (** [embedder['model'](tensor([embedder['tokenizer'].encode(s)]))[0][0]],
      one row per token *)
  last_hidden_states : embedder -> string -> result (list token_vector);
  (** [embedder.embed(Sentence(s))], then each token's [embedding] *)
  flair_embed : embedder -> string -> result (list token_vector);
  (** [embedder.wv.get_vector(token)] *)
  wv_get_vector : embedder -> string -> result token_vector;
  (** the exception of [os.mkdir] for a name that the file system refuses
      whatever the directory holds, such as a name that is too long;
      [None] for a name it accepts *)
  mkdir_error : string -> option exn
}.

(** [isinstance(embedder, dict)] *)
Definition is_dict (e : embedder) : bool :=
  match e with
  | Pretrained _ _ _ _ => true
  | _ => false
  end.

(** [create_embedding(self, statement, embedder)] *)
Definition create_embedding (L : libraries) (cls : encoder_class)
    (statement : string) (e : embedder) : result EmbeddingVector :=
  match cls with
  | GeneralEncoder => Raise (ValueError not_implemented)
  | FlairEncoder =>
      comprehension
        (fun sentence =>
           if is_dict e then last_hidden_states L e sentence
           else flair_embed L e sentence)
        (sent_tokenize L statement)
  | FastTextEncoder | Word2VecEncoder =>
      comprehension
        (fun sentence =>
           comprehension (fun token => wv_get_vector L e token)
                         (word_tokenize L sentence))
        (sent_tokenize L statement)
  end.

(** ** The world of an encoder

    [listing] is the content of [data_dir], which [DataLoader.__init__]
    creates before any encoder runs: an entry is a regular file or a
    directory, and a directory holds the pickled table [data.pkl] or not.
    [frame] is the DataFrame object [self.df]; the encoders of one
    [DataLoader] share it.  [log] records, in order, the calls to the
    backend and to the file system.  What [print] writes is left out; what
    the argument of a [print] raises is not: [print(df.iloc[0])] needs a
    first row. *)

Inductive node : Type :=
  | RegularFile
  | Directory (data_pkl : option DataFrame).

Inductive event : Type :=
  | CallGetEmbedder
  | CallCreateEmbedding (text : string)
  | ReadPickle (dir : string)
  | Mkdir (dir : string)
  | ToPickle (dir : string).

Record world : Type := mkWorld {
  listing : gmap string node;
  frame : DataFrame;
  log : list event
}.

(** The calls that compute something with a backend. *)
Definition is_computation (ev : event) : bool :=
  match ev with
  | CallGetEmbedder | CallCreateEmbedding _ => true
  | _ => false
  end.

Definition computations (w : world) : list event := filter is_computation (log w).

(** A statement sequence that reads and writes the world and may raise. *)
Definition action (A : Type) : Type := world -> result A * world.

Definition ret {A : Type} (a : A) : action A := fun w => (Ok a, w).
Definition raise {A : Type} (e : exn) : action A := fun w => (Raise e, w).
Definition lift {A : Type} (r : result A) : action A := fun w => (r, w).
Definition seq_bind {A B : Type} (c : action A) (k : A -> action B) : action B :=
  fun w =>
    match c w with
    | (Ok a, w') => k a w'
    | (Raise e, w') => (Raise e, w')
    end.

Notation "'do' x <- c ; k" := (seq_bind c (fun x => k))
  (at level 10, x name, c at level 100, k at level 200) : py_scope.

Definition tell (ev : event) : action unit :=
  fun w => (Ok tt, {| listing := listing w; frame := frame w; log := log w ++ [ev] |}).
Definition get_frame : action DataFrame := fun w => (Ok (frame w), w).
Definition put_frame (df : DataFrame) : action unit :=
  fun w => (Ok tt, {| listing := listing w; frame := df; log := log w |}).
Definition get_listing : action (gmap string node) := fun w => (Ok (listing w), w).
Definition put_listing (l : gmap string node) : action unit :=
  fun w => (Ok tt, {| listing := l; frame := frame w; log := log w |}).

(** [series.progress_map(f)]: [f] on every element in order. *)
Fixpoint progress_map {A B : Type} (f : A -> action B) (l : list A) : action (list B) :=
  match l with
  | [] => ret []
  | x :: xs =>
      do y <- f x;
      do ys <- progress_map f xs;
      ret (y :: ys)
  end.

(** [embedding_dir in os.listdir(data_dir)] *)
Definition in_listdir (dir : string) : action bool :=
  do l <- get_listing;
  ret (bool_decide (is_Some (l !! dir))).

(** [pd.read_pickle(os.path.join(data_dir, dir, 'data.pkl'))] *)
Definition read_pickle (dir : string) : action DataFrame :=
  do _ <- tell (ReadPickle dir);
  do l <- get_listing;
  match l !! dir with
  | Some (Directory (Some table)) => ret table
  | Some (Directory None) | None => raise (FileNotFoundError (dir ++ "/data.pkl"))
  | Some RegularFile => raise (NotADirectoryError (dir ++ "/data.pkl"))
  end.

(** [os.mkdir(os.path.join(data_dir, dir))] *)
Definition mkdir (L : libraries) (dir : string) : action unit :=
  do _ <- tell (Mkdir dir);
  do l <- get_listing;
  if bool_decide (dir = "" \/ dir = "." \/ dir = ".." \/ is_Some (l !! dir))
  then raise (FileExistsError dir)
  else match mkdir_error L dir with
       | Some err => raise err
       | None => put_listing (<[dir := Directory None]> l)
       end.

(** [df.iloc[i]]: the row at position [i]. *)
Definition iloc (df : DataFrame) (i : nat) : result (string * string) :=
  match rows df !! i with
  | Some row => Ok row
  | None => Raise (IndexError "single positional indexer is out-of-bounds")
  end.

(** [df.to_pickle(os.path.join(data_dir, dir, 'data.pkl'))] *)
Definition to_pickle (df : DataFrame) (dir : string) : action unit :=
  do _ <- tell (ToPickle dir);
  do l <- get_listing;
  match l !! dir with
  | Some (Directory _) => put_listing (<[dir := Directory (Some df)]> l)
  | Some RegularFile => raise (NotADirectoryError (dir ++ "/data.pkl"))
  | None => raise (FileNotFoundError (dir ++ "/data.pkl"))
  end.

(** An encoder object: its class and [self.embedding]; [self.df] is the
    frame of the world. *)
Record encoder : Type := mkEncoder {
  cls : encoder_class;
  technique : option string
}.

(** [encode_datasets], the inner function of [get_embedded_dataset].
    [iloc df' 0] is the argument of [print(df.iloc[0])]: on a frame
    without rows it raises after the column is assigned and before
    anything is saved. *)
Definition encode_datasets (L : libraries) (self : encoder) (save : bool)
    (embedding_dir : string) : action DataFrame :=
  do cached <- in_listdir embedding_dir;
  if cached then read_pickle embedding_dir
  else
    do df <- get_frame;
    do _ <- tell CallGetEmbedder;
    do e <- lift (get_embedder (cls self) (technique self) (name_column df));
    do column <- progress_map
                   (fun text =>
                      do _ <- tell (CallCreateEmbedding text);
                      lift (create_embedding L (cls self) text e))
                   (name_column df);
    do _ <- put_frame (set_embedding df (map Sentences column));
    do df' <- get_frame;
    do _ <- lift (iloc df' 0);
    do _ <- (if save then
               do present <- in_listdir embedding_dir;
               do _ <- (if present then ret tt else mkdir L embedding_dir);
               do df' <- get_frame;
               to_pickle df' embedding_dir
             else ret tt);
    get_frame.

(** [get_embedded_dataset(self, save = True)] *)
Definition get_embedded_dataset (L : libraries) (self : encoder) (save : bool)
  : action DataFrame :=
  do embedding_dir <- lift (get_embedding_dir (cls self) (technique self));
  encode_datasets L self save embedding_dir.

(** ** The dataset loader *)

(** One value of the JSON file: the [lang] tag and the optional keys
    [classes] and [attributes].  Every document has the key [lang]; a
    document without it would make [get_cleaned_data] raise [KeyError]. *)
Record metadata : Type := mkMetadata {
  lang : string;
  classes : option (list string);
  attributes : option (list string)
}.

(** The dictionary [json.load] returns, as its items in order; the keys of
    a dictionary are distinct. *)
Definition dataset : Type := list (string * metadata).

(** [get_cleaned_data]: the dictionary comprehension over [data.keys()]. *)
Definition get_cleaned_data (data : dataset) : dataset :=
  filter (fun item => lang item.2 = "__label__en") data.

(** The order of numpy's unicode strings: by code point, a proper prefix
    first. *)
Definition str_le (s1 s2 : string) : Prop := String.leb s1 s2 = true.

#[global] Instance str_le_dec : RelDecision str_le.
Proof. intros s1 s2. unfold str_le. apply _. Defined.

(** The mask of [np.unique] on the sorted array: an element is kept when
    it differs from the one before it. *)
Fixpoint keep_changes (previous : string) (sorted : list string) : list string :=
  match sorted with
  | [] => []
  | x :: xs =>
      if bool_decide (x = previous) then keep_changes x xs
      else x :: keep_changes x xs
  end.

(** [np.unique(ar)]: sort, then keep the first element of every run.
    The names are text without NUL characters, which numpy's fixed-width
    strings would drop at the end of a name. *)
Definition np_unique (ar : list string) : list string :=
  match merge_sort str_le ar with
  | [] => []
  | x :: xs => x :: keep_changes x xs
  end.

(** [flatten = lambda t: [item for sublist in t for item in sublist]] *)
Definition flatten {A : Type} (t : list (list A)) : list A := concat t.

(** [get_df_from_data]: the loop fills [all_classes] and [all_attrs], the
    return statement builds the frame. *)
Definition get_df_from_data (data : dataset) : DataFrame :=
  let all_classes := omap (fun item => classes item.2) data in
  let all_attrs := omap (fun item => attributes item.2) data in
  {| rows := map (fun x => (x, "class")) (np_unique (flatten all_classes))
             ++ map (fun x => (x, "attribute")) (np_unique (flatten all_attrs));
     embedding := None |}.

(** What [DataLoader.__init__] stores in [self.df] for the parsed file. *)
Definition loader_table (json : dataset) : DataFrame :=
  get_df_from_data (get_cleaned_data json).

(** ** Pooling *)

(** [np.transpose] of a list of rows.  Rows of one length give the list of
    columns; the empty list and rows of length zero give no column; rows
    of different lengths are refused by [np.array] (numpy 1.24 and later). *)
Definition np_transpose (m : list (list Q)) : result (list (list Q)) :=
  match m with
  | [] => Ok []
  | r :: rs =>
      if forallb (fun r' => Nat.eqb (length r') (length r)) rs
      then Ok (map (fun d => map (fun row => nth d row 0%Q) m) (seq 0 (length r)))
      else Raise (ValueError "setting an array element with a sequence. The requested array has an inhomogeneous shape")
  end.

Inductive reduction : Type := Max | Min | Average.

(** The arithmetic of numpy that the model does not compute:
    [np.average] of a row of floating-point numbers, which sums and
    divides with rounding. *)
Class Numpy : Type := {
  np_average : list Q -> Q
}.

(** The value of [row.max()], [row.min()] and [np.average(row)] on a row
    that is not empty. *)
Definition reduce {N : Numpy} (r : reduction) (row : list Q) : Q :=
  match row with
  | [] => 0
  | x :: xs =>
      match r with
      | Max => fold_left Qmax xs x
      | Min => fold_left Qmin xs x
      | Average => np_average row
      end
  end.

(** The reductions as numpy has them: [max] and [min] of an empty array
    raise, [np.average] of an empty array warns and gives NaN, which is
    not a rational: the model stops there with the warning.  No row that
    [pooling] reduces is empty (lemma [np_transpose_columns]). *)
Definition np_reduce {N : Numpy} (r : reduction) (row : list Q) : result Q :=
  match row, r with
  | [], Max => Raise (ValueError "zero-size array to reduction operation maximum which has no identity")
  | [], Min => Raise (ValueError "zero-size array to reduction operation minimum which has no identity")
  | [], Average => Raise (RuntimeWarning "Mean of empty slice.")
  | _ :: _, _ => Ok (reduce r row)
  end.

Definition iteration_0d : exn := TypeError "iteration over a 0-d array".

(** One branch of [pooling]; the three branches differ in the reduction
    only. *)
Definition pool {N : Numpy} (r : reduction) (vector : cell) : result (list Q) :=
  match vector with
  | Sentences vector =>
      if (1 <? length vector)%nat then
        let* per_sentence :=
          comprehension
            (fun sentence =>
               let* token_rows := np_transpose sentence in
               comprehension (np_reduce r) token_rows)
            vector in
        let* rows := np_transpose per_sentence in
        comprehension (np_reduce r) rows
      else
        let* sentence := subscript vector 0 in
        let* token_rows := np_transpose sentence in
        comprehension (np_reduce r) token_rows
  | Pooled vector =>
      if (1 <? length vector)%nat then Raise iteration_0d
      else
        let* _ := subscript vector 0 in
        Raise iteration_0d
  end.

Definition not_a_pooling : string :=
  "This pooling technique has not been implemented. Please only use 'min', 'max' or 'average' as keywords.".

(** [pooling(vector)], the inner function of [apply_pooling]. *)
Definition pooling {N : Numpy} (technique : string) (vector : cell)
  : result (list Q) :=
  if bool_decide (technique = "max") then pool Max vector
  else if bool_decide (technique = "min") then pool Min vector
  else if bool_decide (technique = "average") then pool Average vector
  else Raise (ValueError not_a_pooling).

(** [apply_pooling(technique, df)].  The frame is changed in place: the
    second component is the frame object after the call, the first is
    what the call returns (the same object) or raises. *)
Definition apply_pooling {N : Numpy} (technique : string) (df : DataFrame)
  : result DataFrame * DataFrame :=
  match embedding df with
  | None => (Raise (AttributeError "'DataFrame' object has no attribute 'embedding'"), df)
  | Some column =>
      match comprehension (pooling technique) column with
      | Raise e => (Raise e, df)
      | Ok pooled =>
          let df' := set_embedding df (map Pooled pooled) in
          (Ok df', df')
      end
  end.

(** ** Definitions the statements below use *)

(** The part of [s] before its first [c]; all of [s] when [c] is not in it. *)
Fixpoint before_first (c : ascii) (s : string) : string :=
  match s with
  | EmptyString => ""
  | String a rest => if Ascii.eqb a c then "" else String a (before_first c rest)
  end.

(** The part of [s] after its first [c]; empty when [c] is not in it. *)
Fixpoint after_first (c : ascii) (s : string) : string :=
  match s with
  | EmptyString => ""
  | String a rest => if Ascii.eqb a c then rest else after_first c rest
  end.

(** The cache key as the specification words it: the segment after the
    first separator, that is what follows the first ['/'] up to the next
    ['/'] or the end of the name; the name itself when it has no ['/']. *)
Definition spec_cache_key (name : string) : string :=
  if contains slash name
  then before_first slash (after_first slash name)
  else name.

(** Strictly ascending order of strings. *)
Definition str_lt (s1 s2 : string) : Prop := String.compare s1 s2 = Lt.

(** [x] is listed under [field] by a document of [json] tagged [tag]. *)
Definition listed (field : metadata -> option (list string)) (tag : string)
    (json : dataset) (x : string) : Prop :=
  exists file md names,
    (file, md) ∈ json /\ lang md = tag /\ field md = Some names /\ x ∈ names.

(** A vector of sentences as [apply_pooling] expects it: at least one
    sentence, every sentence with at least one token, every token vector
    of dimension [dim]. *)
Definition well_formed (dim : nat) (vector : EmbeddingVector) : Prop :=
  vector <> [] /\
  Forall (fun sentence =>
            sentence <> [] /\ Forall (fun token => length token = dim) sentence)
         vector.

(** The value at dimension [d] of every vector of [vectors]. *)
Definition at_dimension (d : nat) (vectors : list (list Q)) : list Q :=
  map (fun v => nth d v 0%Q) vectors.

(** [x] is the reduction of [row]: for [Max] an element of the row that
    no element exceeds, for [Min] an element of the row that exceeds no
    element, for [Average] what [np.average] returns for the row. *)
Definition is_reduction {N : Numpy} (r : reduction) (row : list Q) (x : Q) : Prop :=
  match r with
  | Max => In x row /\ Forall (fun y => (y <= x)%Q) row
  | Min => In x row /\ Forall (fun y => (x <= y)%Q) row
  | Average => x = np_average row
  end.

(** The reduction a pooling keyword selects. *)
Definition reduction_of (technique : string) : option reduction :=
  if bool_decide (technique = "max") then Some Max
  else if bool_decide (technique = "min") then Some Min
  else if bool_decide (technique = "average") then Some Average
  else None.

(** The world after one more logged event. *)
Definition logged (w : world) (ev : event) : world :=
  {| listing := listing w; frame := frame w; log := log w ++ [ev] |}.

(** An arithmetic to run the model on: the mean without rounding. *)
Definition exact_mean : Numpy :=
  {| np_average := fun row =>
       (fold_right Qplus 0 row / inject_Z (Z.of_nat (length row)))%Q |}.

(** Library functions to run the model on: one sentence and one token per
    text, two-dimensional vectors. *)
Definition example_libraries : libraries :=
  {| sent_tokenize := fun text => [text];
     word_tokenize := fun sentence => [sentence];
     last_hidden_states := fun _ _ => Ok [[1#1; 5#1]; [3#1; 2#1]];
     flair_embed := fun _ _ => Ok [[1#1; 5#1]; [3#1; 2#1]];
     wv_get_vector := fun _ _ => Ok [1#2; 1#4];
     mkdir_error := fun _ => None |}.

Definition example_frame : DataFrame :=
  {| rows := [("Bike", "class"); ("Car", "class"); ("speed", "attribute")];
     embedding := None |}.

Definition example_world : world :=
  {| listing := ∅; frame := example_frame; log := [] |}.

(** ** The [DataLoader] object *)

(** The files [DataLoader.__init__] touches.  [json_files] maps the path
    of a data file to the dictionary [json.load] returns for it;
    [directories] maps the path of an embeddings directory to its
    content.  The parent ["../embeddings"] is made along with the
    directory, and no path of the model is both a file and a directory. *)
Record disk : Type := mkDisk {
  json_files : gmap string dataset;
  directories : gmap string (gmap string node)
}.

Definition unsupported_dataset : string :=
  "This dataset is not supported. Please only use 'lindholmen' or 'genmymodel' as keywords.".

(** [set_embeddings]: the attributes it attaches, each with the encoder
    whose [get_embedded_dataset] it is.  [FastTextEncoder] and
    [Word2VecEncoder] are constructed without [embedding]. *)
Definition set_embeddings : list (string * encoder) :=
  [ ("get_bert", mkEncoder FlairEncoder (Some "bert-base-uncased"));
    ("get_transformerxl", mkEncoder FlairEncoder (Some "transfo-xl-wt103"));
    ("get_gpt", mkEncoder FlairEncoder (Some "openai-gpt"));
    ("get_gpt2", mkEncoder FlairEncoder (Some "gpt2"));
    ("get_xlm", mkEncoder FlairEncoder (Some "xlm-mlm-en-2048"));
    ("get_xlnet", mkEncoder FlairEncoder (Some "xlnet-base-cased"));
    ("get_gptneo", mkEncoder FlairEncoder (Some "EleutherAI/gpt-neo-1.3B"));
    ("get_fasttext", mkEncoder FastTextEncoder None);
    ("get_word2vec", mkEncoder Word2VecEncoder None) ].

(** The attributes of a [DataLoader]. *)
Record DataLoader : Type := mkDataLoader {
  data_link : string;
  data_dir : string;
  data : dataset;
  df : DataFrame;
  accessors : list (string * encoder)
}.

(** The first statement of [__init__]: the data file of a dataset. *)
Definition select_data_link (dataset : string) : result string :=
  if bool_decide (dataset = "lindholmen")
  then Ok "../../data/uml_extracted_metadata_annotated.json"
  else if bool_decide (dataset = "genmymodel")
  then Ok "../../data/genmymodel_uml_extracted_metadata_annotated.json"
  else Raise (ValueError unsupported_dataset).

(** [Path(dir).mkdir(parents=True, exist_ok=True)]: an existing directory
    is left as it is. *)
Definition mkdir_exist_ok (dir : string) (d : disk) : result unit * disk :=
  if bool_decide (is_Some (json_files d !! dir))
  then (Raise (FileExistsError dir), d)
  else match directories d !! dir with
       | Some _ => (Ok tt, d)
       | None => (Ok tt, {| json_files := json_files d;
                            directories := <[dir := ∅]> (directories d) |})
       end.

(** [DataLoader.__init__(self, dataset)]: the loader and the disk after
    the call. *)
Definition DataLoader_init (dataset : string) (d : disk) : result DataLoader * disk :=
  match select_data_link dataset with
  | Raise e => (Raise e, d)
  | Ok link =>
      let dir := String.append "../embeddings/" dataset in
      match mkdir_exist_ok dir d with
      | (Raise e, d') => (Raise e, d')
      | (Ok _, d') =>
          match json_files d' !! link with
          | None => (Raise (FileNotFoundError link), d')
          | Some json =>
              let english_data := get_cleaned_data json in
              (Ok {| data_link := link;
                     data_dir := dir;
                     data := english_data;
                     df := get_df_from_data english_data;
                     accessors := set_embeddings |},
               d')
          end
      end
  end.

(** The world an encoder of the loader runs in: the content of the
    loader's directory and the loader's frame. *)
Definition encoder_world (loader : DataLoader) (d : disk) : world :=
  {| listing := default ∅ (directories d !! data_dir loader);
     frame := df loader;
     log := [] |}.

(** A call of one of the attached methods, [loader.get_bert()] and the
    like: the encoder runs on the loader's directory and frame, which keep
    what it wrote. *)
Definition call_accessor (L : libraries) (loader : DataLoader) (self : encoder)
    (save : bool) (d : disk) : result DataFrame * DataLoader * disk :=
  let (r, w) := get_embedded_dataset L self save (encoder_world loader d) in
  (r,
   {| data_link := data_link loader; data_dir := data_dir loader;
      data := data loader; df := frame w; accessors := accessors loader |},
   {| json_files := json_files d;
      directories := <[data_dir loader := listing w]> (directories d) |}).

(** ** More definitions for the statements *)

(** The texts [create_embedding] is called on when a loop over [names]
    stops at the first exception of [g]. *)
Fixpoint attempted {A : Type} (g : string -> result A) (names : list string)
  : list string :=
  match names with
  | [] => []
  | text :: rest =>
      text :: match g text with
              | Ok _ => attempted g rest
              | Raise _ => []
              end
  end.

(** The world after more logged events. *)
Definition logged_all (w : world) (evs : list event) : world :=
  {| listing := listing w; frame := frame w; log := log w ++ evs |}.

(** A name [os.mkdir] makes a directory of, when no entry has it. *)
Definition makeable (L : libraries) (dir : string) : Prop :=
  dir <> "" /\ dir <> "." /\ dir <> ".." /\ mkdir_error L dir = None.

(** Library functions that find no sentence in the empty text and whose
    word vectors know every token but "Car": [get_vector] raises
    [KeyError] on a token out of the vocabulary. *)
Definition small_vocabulary_libraries : libraries :=
  {| sent_tokenize := fun text => if bool_decide (text = "") then [] else [text];
     word_tokenize := fun sentence => [sentence];
     last_hidden_states := fun _ _ => Ok [[1#1; 5#1]; [3#1; 2#1]];
     flair_embed := fun _ _ => Ok [[1#1; 5#1]; [3#1; 2#1]];
     wv_get_vector := fun _ token =>
                        if bool_decide (token = "Car") then Raise (KeyError token)
                        else Ok [1#2; 1#4];
     mkdir_error := fun dir =>
                      if bool_decide (255 < String.length dir)
                      then Some (OSError "File name too long")
                      else None |}.

(** The exception of [np.array] on rows of different lengths. *)
Definition inhomogeneous_shape : exn :=
  ValueError "setting an array element with a sequence. The requested array has an inhomogeneous shape".

(** The dimension of the first token vector of a sentence; 0 for a
    sentence without tokens. *)
Definition sentence_dimension (sentence : list token_vector) : nat :=
  length (hd [] sentence).

(** All token vectors of a sentence have one dimension, and all sentences
    have the same. *)
Definition rectangular (vector : EmbeddingVector) : bool :=
  forallb (fun sentence =>
             forallb (fun token => Nat.eqb (length token) (sentence_dimension sentence))
                     sentence)
          vector
  && forallb (fun sentence =>
                Nat.eqb (sentence_dimension sentence)
                        (sentence_dimension (hd [] vector)))
             vector.

(** All token vectors of all sentences. *)
Definition all_tokens (vector : EmbeddingVector) : list token_vector :=
  concat vector.

(** * Properties *)

(** ** Cache keys *)

Lemma split_head (c : ascii) (s : string) :
  exists segs, split c s = before_first c s :: segs /\
               (contains c s = true -> segs = split c (after_first c s)).
Proof.
  induction s as [|a rest IH]; simpl.
  - exists []. split; [reflexivity | discriminate].
  - destruct (Ascii.eqb a c) eqn:Hac.
    + exists (split c rest). split; reflexivity.
    + destruct IH as (segs & -> & Hsegs). exists segs. split; [reflexivity | exact Hsegs].
Qed.

Lemma split_second (c : ascii) (s : string) :
  contains c s = true ->
  split c s !! 1%nat = Some (before_first c (after_first c s)).
Proof.
  intros Hc. destruct (split_head c s) as (segs & -> & Hsegs).
  rewrite (Hsegs Hc). destruct (split_head c (after_first c s)) as (segs' & -> & _).
  reflexivity.
Qed.

(** C8.  The directory name that [GeneralEncoder.get_embedding_dir]
    returns for a technique name, and so does [FlairEncoder], which inherits
    the method: a name without ['/'] is its own key, and a name with ['/']
    has as key the segment after the first ['/'] (for ["a/b/c"] that is
    ["b"]). *)
Theorem get_embedding_dir_cache_key (name : string) :
  get_embedding_dir GeneralEncoder (Some name) = Ok (spec_cache_key name) /\
  get_embedding_dir FlairEncoder (Some name) = Ok (spec_cache_key name) /\
  get_embedding_dir FlairEncoder (Some "EleutherAI/gpt-neo-1.3B") = Ok "gpt-neo-1.3B" /\
  get_embedding_dir FlairEncoder (Some "a/b/c") = Ok "b".
Proof.
  assert (H : forall k, (k = GeneralEncoder \/ k = FlairEncoder) ->
                        get_embedding_dir k (Some name) = Ok (spec_cache_key name)).
  { intros k Hk. unfold spec_cache_key.
    assert (Hdef : get_embedding_dir k (Some name) =
                   if contains slash name then subscript (split slash name) 1
                   else Ok name)
      by (destruct Hk as [-> | ->]; reflexivity).
    rewrite Hdef. destruct (contains slash name) eqn:Hc; [|reflexivity].
    unfold subscript. rewrite (split_second _ _ Hc). reflexivity. }
  repeat split; [apply H; by left | apply H; by right | ..]; reflexivity.
Qed.

(** ** The backend methods of the base class *)

(** C9, as the code has it.  On a [GeneralEncoder], [get_embedder] and
    [create_embedding] raise for every input, and the exception is a
    [ValueError] with the message "This function should be implemented in
    the children encoders". *)
Theorem general_encoder_methods_raise_ValueError
    (L : libraries) (embedding : option string) (names : list string)
    (statement : string) (e : embedder) :
  get_embedder GeneralEncoder embedding names = Raise (ValueError not_implemented) /\
  create_embedding L GeneralEncoder statement e = Raise (ValueError not_implemented).
Proof. split; reflexivity. Qed.

(** C9, as the claim states it, fails: neither method raises a
    [NotImplementedError]. *)
Lemma general_encoder_not_NotImplementedError :
  ~ ((exists msg, get_embedder GeneralEncoder (Some "bert-base-uncased") ["Car"]
                  = Raise (NotImplementedError msg)) /\
     (exists msg, create_embedding example_libraries GeneralEncoder "Car"
                    (TransformerWordEmbeddings (Some "bert-base-uncased"))
                  = Raise (NotImplementedError msg))).
Proof. intros [[msg H] _]. discriminate H. Qed.

(** ** Model selection of the transformer backend *)

(** C7 at the technique name "xlm-mlm-en-2048": the model and the
    tokenizer are loaded from the checkpoint "transfo-xl-wt103", not from
    the checkpoint the technique names; the same happens for
    "xlnet-base-cased".  For "transfo-xl-wt103" the checkpoint is the
    technique name, and a name that is not one of the three, such as
    "EleutherAI/gpt-neo-1.3B", goes to [TransformerWordEmbeddings] with
    that name. *)
Theorem get_embedder_flair_checkpoints (names : list string) :
  get_embedder FlairEncoder (Some "xlm-mlm-en-2048") names
    = Ok (Pretrained XLMModel "transfo-xl-wt103" XLMTokenizer "transfo-xl-wt103") /\
  get_embedder FlairEncoder (Some "xlm-mlm-en-2048") names
    <> Ok (Pretrained XLMModel "xlm-mlm-en-2048" XLMTokenizer "xlm-mlm-en-2048") /\
  get_embedder FlairEncoder (Some "xlnet-base-cased") names
    = Ok (Pretrained XLNetModel "transfo-xl-wt103" XLNetTokenizer "transfo-xl-wt103") /\
  get_embedder FlairEncoder (Some "transfo-xl-wt103") names
    = Ok (Pretrained TransfoXLModel "transfo-xl-wt103" TransfoXLTokenizer "transfo-xl-wt103") /\
  get_embedder FlairEncoder (Some "EleutherAI/gpt-neo-1.3B") names
    = Ok (TransformerWordEmbeddings (Some "EleutherAI/gpt-neo-1.3B")).
Proof. repeat split; try reflexivity; discriminate. Qed.

(** ** The cache of the encoders *)

Lemma computations_logged (w : world) (ev : event) :
  is_computation ev = false -> computations (logged w ev) = computations w.
Proof.
  intros Hev. unfold computations, logged; simpl.
  rewrite filter_app, filter_cons_False, filter_nil, app_nil_r by (rewrite Hev; auto).
  reflexivity.
Qed.

(** A directory with a pickled table is read; nothing else happens. *)
Lemma encode_datasets_hit (L : libraries) (self : encoder) (save : bool)
    (dir : string) (w : world) (table : DataFrame) :
  listing w !! dir = Some (Directory (Some table)) ->
  encode_datasets L self save dir w = (Ok table, logged w (ReadPickle dir)).
Proof.
  intros Hdir. unfold encode_datasets, in_listdir, read_pickle, seq_bind; simpl.
  rewrite Hdir, bool_decide_eq_true_2 by eauto. simpl. rewrite Hdir. reflexivity.
Qed.

(** Whatever lies under the name of the directory, the call goes to
    [read_pickle] and to nothing else. *)
Lemma encode_datasets_listed (L : libraries) (self : encoder) (save : bool)
    (dir : string) (w : world) :
  is_Some (listing w !! dir) ->
  (encode_datasets L self save dir w).2 = logged w (ReadPickle dir).
Proof.
  intros Hdir. unfold encode_datasets, in_listdir, read_pickle, seq_bind; simpl.
  rewrite bool_decide_eq_true_2 by exact Hdir. simpl.
  destruct (listing w !! dir) as [[|[table|]]|]; reflexivity.
Qed.

(** The loop over the names touches neither the directory nor the frame. *)
Lemma progress_map_logs {A B : Type} (f : A -> action B) (l : list A) :
  (forall x w, exists r ev, f x w = (r, logged w ev)) ->
  forall w, exists r evs,
    progress_map f l w
    = (r, {| listing := listing w; frame := frame w; log := log w ++ evs |}).
Proof.
  intros Hf. induction l as [|x xs IH]; intros w.
  - exists (Ok []), []. simpl. unfold ret. rewrite app_nil_r. by destruct w.
  - simpl. unfold seq_bind at 1.
    destruct (Hf x w) as (r & ev & ->). destruct r as [y|e].
    + unfold seq_bind at 1. destruct (IH (logged w ev)) as (r & evs & ->).
      destruct r as [ys|e]; simpl.
      * exists (Ok (y :: ys)), (ev :: evs). unfold ret. by rewrite <- app_assoc.
      * exists (Raise e), (ev :: evs). by rewrite <- app_assoc.
    + exists (Raise e), [ev]. reflexivity.
Qed.

Lemma progress_map_create_embedding (g : string -> result EmbeddingVector)
    (names : list string) (w : world) :
  exists r evs,
    progress_map (fun text => do _ <- tell (CallCreateEmbedding text); lift (g text))
                 names w
    = (r, {| listing := listing w; frame := frame w; log := log w ++ evs |}).
Proof.
  apply progress_map_logs. intros text w0.
  exists (g text), (CallCreateEmbedding text). reflexivity.
Qed.

(** A persisting call that returns leaves the returned table pickled in
    the directory. *)
Lemma encode_datasets_persisted (L : libraries) (self : encoder) (dir : string)
    (w w' : world) (table : DataFrame) :
  encode_datasets L self true dir w = (Ok table, w') ->
  listing w' !! dir = Some (Directory (Some table)).
Proof.
  unfold encode_datasets, in_listdir. unfold seq_bind at 1. simpl.
  destruct (listing w !! dir) as [n|] eqn:Hdir.
  - rewrite bool_decide_eq_true_2 by eauto.
    unfold read_pickle, seq_bind; simpl. rewrite Hdir.
    destruct n as [|[t|]]; simpl; intros [= <- <-]; exact Hdir.
  - rewrite bool_decide_eq_false_2 by (intros [? ?]; discriminate).
    unfold seq_bind at 1. simpl. unfold seq_bind at 1. simpl.
    unfold seq_bind at 1. unfold lift at 1.
    destruct (get_embedder _ _ _) as [e|err]; [|discriminate].
    unfold seq_bind at 1.
    match goal with |- context [progress_map ?f ?l ?w0] =>
      destruct (progress_map_create_embedding
                  (fun text => create_embedding L (cls self) text e) l w0)
        as (r & evs & Hloop)
    end.
    rewrite Hloop. clear Hloop. simpl.
    destruct r as [column|err]; [|discriminate].
    unfold seq_bind; simpl. unfold lift, iloc; simpl.
    destruct (rows (frame w) !! 0%nat) as [row|]; [|discriminate].
    rewrite bool_decide_eq_false_2 by (rewrite Hdir; intros [? ?]; discriminate).
    unfold mkdir, seq_bind; simpl.
    destruct (bool_decide _) eqn:Hname; simpl; [discriminate|].
    destruct (mkdir_error L dir) as [err|]; [discriminate|].
    unfold to_pickle, seq_bind; simpl. rewrite lookup_insert_eq. simpl.
    intros [= <- <-]. simpl. by rewrite lookup_insert_eq.
Qed.

(** After a persisting call that returned, every call for the same
    directory, from whatever encoder and on whatever frame, reads the
    table back. *)
Lemma encode_datasets_again (L : libraries) (self self' : encoder) (save : bool)
    (dir : string) (w w1 w2 : world) (table : DataFrame) :
  encode_datasets L self true dir w = (Ok table, w1) ->
  listing w2 = listing w1 ->
  encode_datasets L self' save dir w2 = (Ok table, logged w2 (ReadPickle dir)).
Proof.
  intros Hfirst Hlisting. apply encode_datasets_hit.
  rewrite Hlisting. exact (encode_datasets_persisted _ _ _ _ _ _ Hfirst).
Qed.

Lemma get_embedded_dataset_unfold (L : libraries) (self : encoder) (save : bool)
    (dir : string) (w : world) :
  get_embedding_dir (cls self) (technique self) = Ok dir ->
  get_embedded_dataset L self save w = encode_datasets L self save dir w.
Proof.
  intros Hdir. unfold get_embedded_dataset, seq_bind, lift. rewrite Hdir. reflexivity.
Qed.

(** C3.  Let [dir] be the directory name of the encoder's technique.
    When [dir] holds a pickled table, [get_embedded_dataset] returns that
    table and only logs the read: no call to [get_embedder], no call to
    [create_embedding].  Whenever the name [dir] is listed at all, no such
    call is made.  So after a persisting call that returned a table, a
    second call returns the same table and computes nothing. *)
Theorem get_embedded_dataset_cached (L : libraries) (self : encoder) (dir : string)
    (Hdir : get_embedding_dir (cls self) (technique self) = Ok dir) :
  (forall save w table,
      listing w !! dir = Some (Directory (Some table)) ->
      get_embedded_dataset L self save w = (Ok table, logged w (ReadPickle dir)) /\
      computations (logged w (ReadPickle dir)) = computations w) /\
  (forall save w,
      is_Some (listing w !! dir) ->
      computations (get_embedded_dataset L self save w).2 = computations w) /\
  (forall save w table w1,
      get_embedded_dataset L self true w = (Ok table, w1) ->
      get_embedded_dataset L self save w1 = (Ok table, logged w1 (ReadPickle dir)) /\
      computations (logged w1 (ReadPickle dir)) = computations w1).
Proof.
  split; [|split].
  - intros save w table Hpkl. split; [|by apply computations_logged].
    rewrite (get_embedded_dataset_unfold _ _ _ _ _ Hdir).
    by apply encode_datasets_hit.
  - intros save w Hlisted.
    rewrite (get_embedded_dataset_unfold _ _ _ _ _ Hdir).
    rewrite encode_datasets_listed by exact Hlisted.
    by apply computations_logged.
  - intros save w table w1 Hfirst. split; [|by apply computations_logged].
    rewrite (get_embedded_dataset_unfold _ _ _ _ _ Hdir) in Hfirst.
    rewrite (get_embedded_dataset_unfold _ _ _ _ _ Hdir).
    by eapply encode_datasets_again.
Qed.

(** The first call computes and persists, the second reads. *)
Lemma get_embedded_dataset_cached_witness :
  exists table w1,
    get_embedded_dataset example_libraries
      (mkEncoder FlairEncoder (Some "EleutherAI/gpt-neo-1.3B")) true example_world
    = (Ok table, w1) /\
    computations w1 <> [] /\
    get_embedded_dataset example_libraries
      (mkEncoder FlairEncoder (Some "EleutherAI/gpt-neo-1.3B")) true w1
    = (Ok table, logged w1 (ReadPickle "gpt-neo-1.3B")) /\
    computations (logged w1 (ReadPickle "gpt-neo-1.3B")) = computations w1.
Proof.
  eexists _, _. split; [vm_compute; reflexivity|].
  split; [discriminate|].
  apply (get_embedded_dataset_cached example_libraries
           (mkEncoder FlairEncoder (Some "EleutherAI/gpt-neo-1.3B"))
           "gpt-neo-1.3B" eq_refl).
  vm_compute; reflexivity.
Defined.

(** C10.  For a [FastTextEncoder] and for a [Word2VecEncoder] the
    directory name is "fasttext", respectively "word2vec", whatever the
    encoder's [embedding] is.  So after a persisting run of such an
    encoder returned a table, a run of an encoder of the same class with
    any other [embedding], on any frame, reads that table back from the
    shared directory. *)
Theorem trained_backends_share_directory (backend : encoder_class) (dir : string)
    (Hbackend : backend = FastTextEncoder /\ dir = "fasttext" \/
                backend = Word2VecEncoder /\ dir = "word2vec")
    (embedding1 embedding2 : option string) :
  get_embedding_dir backend embedding1 = Ok dir /\
  get_embedding_dir backend embedding2 = Ok dir /\
  (forall L save w table w1 w2,
      get_embedded_dataset L (mkEncoder backend embedding1) true w = (Ok table, w1) ->
      listing w2 = listing w1 ->
      get_embedded_dataset L (mkEncoder backend embedding2) save w2
      = (Ok table, logged w2 (ReadPickle dir))).
Proof.
  assert (Hdir : forall embedding, get_embedding_dir backend embedding = Ok dir)
    by (intros embedding; destruct Hbackend as [[-> ->] | [-> ->]]; reflexivity).
  split; [apply Hdir | split; [apply Hdir |]].
  intros L save w table w1 w2 Hfirst Hlisting.
  rewrite (get_embedded_dataset_unfold _ _ _ dir) in Hfirst by apply Hdir.
  rewrite (get_embedded_dataset_unfold _ _ _ dir) by apply Hdir.
  by eapply encode_datasets_again.
Qed.

(** A [Word2VecEncoder] with another [embedding] and an empty frame reads
    the table of the first one. *)
Lemma trained_backends_share_directory_witness :
  let first := get_embedded_dataset example_libraries
                 (mkEncoder Word2VecEncoder None) true example_world in
  let w2 := {| listing := listing first.2;
               frame := {| rows := []; embedding := None |}; log := [] |} in
  exists table,
    first = (Ok table, first.2) /\
    get_embedded_dataset example_libraries
      (mkEncoder Word2VecEncoder (Some "size=100")) false w2
    = (Ok table, logged w2 (ReadPickle "word2vec")).
Proof.
  intros first w2. eexists. split; [vm_compute; reflexivity|].
  apply (proj2 (proj2 (trained_backends_share_directory Word2VecEncoder "word2vec"
                         (or_intror (conj eq_refl eq_refl)) None (Some "size=100")))
           example_libraries false example_world _ first.2 w2).
  - vm_compute; reflexivity.
  - reflexivity.
Defined.

(** ** The order of strings and [np.unique] *)

Lemma str_lt_trans (a b c : string) : str_lt a b -> str_lt b c -> str_lt a c.
Proof.
  unfold str_lt. intros Hab Hbc.
  apply String_as_OT.cmp_lt. apply String_as_OT.cmp_lt in Hab, Hbc.
  eapply String_as_OT.lt_trans; eassumption.
Qed.

Lemma str_lt_irrefl (a : string) : ~ str_lt a a.
Proof.
  unfold str_lt. intros H.
  assert (He : String.compare a a = Eq) by (by apply String_as_OT.cmp_eq).
  congruence.
Qed.

Lemma str_le_lt_eq (a b : string) : str_le a b <-> str_lt a b \/ a = b.
Proof.
  unfold str_le, str_lt, String.leb. split.
  - destruct (String.compare a b) eqn:Hc; intros H; try discriminate.
    + right. by apply String.compare_eq_iff.
    + by left.
  - intros [-> | ->]; [reflexivity|].
    assert (He : String.compare b b = Eq) by (by apply String_as_OT.cmp_eq).
    by rewrite He.
Qed.

#[global] Instance str_le_total : Total str_le.
Proof. intros a b. apply String.leb_total. Qed.

#[global] Instance str_le_trans : Transitive str_le.
Proof.
  intros a b c Hab Hbc. apply str_le_lt_eq in Hab, Hbc. apply str_le_lt_eq.
  destruct Hab as [Hab | ->]; [|exact Hbc].
  destruct Hbc as [Hbc | ->]; left; [by eapply str_lt_trans | exact Hab].
Qed.

Lemma str_lt_le_trans (a b c : string) : str_lt a b -> str_le b c -> str_lt a c.
Proof.
  intros Hab Hbc. apply str_le_lt_eq in Hbc.
  destruct Hbc as [Hbc | <-]; [by eapply str_lt_trans | exact Hab].
Qed.

(** On an ascending array the mask keeps one element of every run: the
    result ascends strictly and has the elements of the array. *)
Lemma keep_changes_sorted (previous : string) (sorted : list string) :
  StronglySorted str_le (previous :: sorted) ->
  StronglySorted str_lt (previous :: keep_changes previous sorted) /\
  (forall y, y ∈ previous :: keep_changes previous sorted <-> y ∈ previous :: sorted).
Proof.
  revert previous. induction sorted as [|x xs IH]; intros previous Hsorted; simpl.
  - split; [repeat constructor | reflexivity].
  - apply StronglySorted_inv in Hsorted as [Htail Hall].
    destruct (IH x Htail) as [IHs IHm].
    case_bool_decide as Hx.
    + subst x. split; [exact IHs|].
      intros y. rewrite IHm, !elem_of_cons. tauto.
    + split.
      * constructor; [exact IHs|].
        apply Forall_forall. intros y Hy. apply IHm in Hy.
        apply Forall_cons in Hall as [Hpx Hpxs].
        assert (Hlt : str_lt previous x).
        { apply str_le_lt_eq in Hpx. destruct Hpx as [Hpx | Hpx]; [exact Hpx | congruence]. }
        apply elem_of_cons in Hy as [-> | Hy]; [exact Hlt|].
        apply StronglySorted_inv in Htail as [_ Hxs].
        eapply str_lt_le_trans; [exact Hlt|].
        by eapply Forall_forall in Hxs.
      * intros y. rewrite elem_of_cons, IHm, !elem_of_cons. tauto.
Qed.

Lemma np_unique_sorted (ar : list string) : StronglySorted str_lt (np_unique ar).
Proof.
  unfold np_unique.
  pose proof (StronglySorted_merge_sort str_le ar) as Hsorted.
  destruct (merge_sort str_le ar) as [|x xs]; [constructor|].
  by apply keep_changes_sorted.
Qed.

Lemma np_unique_elem_of (ar : list string) (y : string) : y ∈ np_unique ar <-> y ∈ ar.
Proof.
  unfold np_unique.
  pose proof (StronglySorted_merge_sort str_le ar) as Hsorted.
  assert (Hperm : y ∈ merge_sort str_le ar <-> y ∈ ar)
    by (by rewrite (merge_sort_Permutation str_le ar)).
  rewrite <- Hperm. clear Hperm.
  destruct (merge_sort str_le ar) as [|x xs]; [reflexivity|].
  by apply keep_changes_sorted.
Qed.

Lemma strictly_sorted_NoDup (l : list string) : StronglySorted str_lt l -> NoDup l.
Proof.
  induction 1 as [|x l Hl IH Hx]; constructor; [|exact IH].
  intros Hin. eapply Forall_forall in Hx; [|exact Hin]. by apply str_lt_irrefl in Hx.
Qed.

(** ** The loader *)

Lemma get_cleaned_data_elem_of (json : dataset) (item : string * metadata) :
  item ∈ get_cleaned_data json <-> item ∈ json /\ lang item.2 = "__label__en".
Proof. unfold get_cleaned_data. rewrite list_elem_of_filter. tauto. Qed.

Lemma flatten_field_elem_of (field : metadata -> option (list string))
    (data : dataset) (x : string) :
  x ∈ flatten (omap (fun item => field item.2) data) <->
  exists file md names, (file, md) ∈ data /\ field md = Some names /\ x ∈ names.
Proof.
  unfold flatten. rewrite list_elem_of_In, in_concat. split.
  - intros (names & Hnames & Hx). apply list_elem_of_In in Hnames. apply list_elem_of_In in Hx.
    apply list_elem_of_omap in Hnames.
    destruct Hnames as ([file md] & Hitem & Hfield). by exists file, md, names.
  - intros (file & md & names & Hitem & Hfield & Hx).
    exists names. rewrite <- !list_elem_of_In. split; [|exact Hx].
    apply list_elem_of_omap. by exists (file, md).
Qed.

Lemma cleaned_field_listed (field : metadata -> option (list string))
    (json : dataset) (x : string) :
  x ∈ np_unique (flatten (omap (fun item => field item.2) (get_cleaned_data json)))
  <-> listed field "__label__en" json x.
Proof.
  rewrite np_unique_elem_of, flatten_field_elem_of. unfold listed. split.
  - intros (file & md & names & Hitem & Hfield & Hx).
    apply get_cleaned_data_elem_of in Hitem as [Hitem Hlang]. by exists file, md, names.
  - intros (file & md & names & Hitem & Hlang & Hfield & Hx).
    exists file, md, names. split; [|done]. by apply get_cleaned_data_elem_of.
Qed.

(** C2.  The rows of the loader's table are the class names of the
    documents tagged ["__label__en"], each once and in strictly ascending
    order, tagged "class", followed by their attribute names, each once
    and in strictly ascending order, tagged "attribute"; the table of the
    example has the three rows of the claim. *)
Theorem loader_table_rows (json : dataset) :
  (exists class_names attribute_names,
      rows (loader_table json)
      = map (fun x => (x, "class")) class_names
        ++ map (fun x => (x, "attribute")) attribute_names /\
      StronglySorted str_lt class_names /\
      StronglySorted str_lt attribute_names /\
      (forall x, x ∈ class_names <-> listed classes "__label__en" json x) /\
      (forall x, x ∈ attribute_names <-> listed attributes "__label__en" json x)) /\
  rows (loader_table
          [("a", {| lang := "__label__en";
                    classes := Some ["Car"; "Car"; "Bike"];
                    attributes := Some ["speed"] |})])
  = [("Bike", "class"); ("Car", "class"); ("speed", "attribute")].
Proof.
  split; [|reflexivity].
  eexists _, _. split; [reflexivity|].
  split; [apply np_unique_sorted|]. split; [apply np_unique_sorted|].
  split; intros x; apply cleaned_field_listed.
Qed.

(** C4, as the code has it.  No row of the loader's table occurs twice,
    and no name occurs twice under one tag.  The name column is without
    duplicates exactly when no name is listed both as a class and as an
    attribute by documents tagged ["__label__en"]. *)
Theorem loader_table_no_duplicate_rows (json : dataset) (tag : string) :
  NoDup (rows (loader_table json)) /\
  NoDup (map fst (filter (fun row => row.2 = tag) (rows (loader_table json)))) /\
  (NoDup (name_column (loader_table json)) <->
   forall x, ~ (listed classes "__label__en" json x /\
                listed attributes "__label__en" json x)).
Proof.
  assert (Htagged : forall (t : string) (l : list string),
             NoDup l -> NoDup (map (fun x => (x, t)) l)).
  { intros t l Hl.
    assert (Inj (=) (=) (fun x : string => (x, t))) by (intros x y [= ->]; reflexivity).
    change (NoDup ((fun x => (x, t)) <$> l)). by apply NoDup_fmap_2. }
  assert (Hfilter : forall (t : string) (l : list string),
             map fst (filter (fun row : string * string => row.2 = tag)
                             (map (fun x => (x, t)) l))
             = if bool_decide (t = tag) then l else []).
  { intros t l. induction l as [|x l IH]; simpl; [by case_bool_decide|].
    rewrite filter_cons. simpl. case_bool_decide as Ht.
    - destruct (decide (t = tag)); [|done]. simpl. by rewrite IH.
    - destruct (decide (t = tag)); [done|]. exact IH. }
  pose proof (strictly_sorted_NoDup _
    (np_unique_sorted (flatten (omap (fun item => classes item.2)
                                     (get_cleaned_data json))))) as Hc.
  pose proof (strictly_sorted_NoDup _
    (np_unique_sorted (flatten (omap (fun item => attributes item.2)
                                     (get_cleaned_data json))))) as Ha.
  pose proof (cleaned_field_listed classes json) as Hlc.
  pose proof (cleaned_field_listed attributes json) as Hla.
  unfold loader_table, get_df_from_data, name_column; simpl. split; [|split].
  - apply NoDup_app. split; [by apply Htagged|]. split; [|by apply Htagged].
    intros row Hrow Hrow'. apply list_elem_of_fmap in Hrow as (x & -> & _).
    apply list_elem_of_fmap in Hrow' as (y & [=] & _).
  - rewrite filter_app, map_app, !Hfilter.
    repeat case_bool_decide; simpl; rewrite ?app_nil_r; try done; try constructor.
    congruence.
  - rewrite map_app, !map_map. simpl. rewrite !map_id.
    rewrite NoDup_app. split.
    + intros (_ & Hdisjoint & _) x [Hxc Hxa].
      apply Hlc in Hxc. apply Hla in Hxa. by apply (Hdisjoint x).
    + intros Hnone. split; [exact Hc|]. split; [|exact Ha].
      intros x Hxc Hxa. apply (Hnone x). split; [by apply Hlc | by apply Hla].
Qed.

(** C4, as the claim states it, fails: a name listed as a class and as an
    attribute is twice in the name column. *)
Lemma loader_table_name_twice :
  ~ NoDup (name_column
             (loader_table
                [("a", {| lang := "__label__en";
                          classes := Some ["id"];
                          attributes := Some ["id"] |})])).
Proof.
  intros H. apply NoDup_cons_1_1 in H. apply H. vm_compute. apply list_elem_of_here.
Qed.

(** C5, as the code has it.  [get_cleaned_data] keeps exactly the
    documents whose [lang] is the string ["__label__en"], and every name
    of the loader's table is listed by such a document, as a class when
    its row is tagged "class" and as an attribute when it is tagged
    "attribute". *)
Theorem get_cleaned_data_keeps_label_en (json : dataset) :
  (forall item, item ∈ get_cleaned_data json <->
                item ∈ json /\ lang item.2 = "__label__en") /\
  (forall x, (x, "class") ∈ rows (loader_table json) <->
             listed classes "__label__en" json x) /\
  (forall x, (x, "attribute") ∈ rows (loader_table json) <->
             listed attributes "__label__en" json x) /\
  (forall x t, (x, t) ∈ rows (loader_table json) -> t = "class" \/ t = "attribute").
Proof.
  split; [apply get_cleaned_data_elem_of|].
  unfold loader_table, get_df_from_data; simpl.
  repeat split.
  - intros Hx. apply elem_of_app in Hx as [Hx | Hx];
      apply list_elem_of_fmap in Hx as (y & [= ->] & Hy).
    by apply cleaned_field_listed.
  - intros Hx. apply elem_of_app. left. apply list_elem_of_fmap. exists x.
    split; [reflexivity|]. by apply cleaned_field_listed.
  - intros Hx. apply elem_of_app in Hx as [Hx | Hx];
      apply list_elem_of_fmap in Hx as (y & [= ->] & Hy).
    by apply cleaned_field_listed.
  - intros Hx. apply elem_of_app. right. apply list_elem_of_fmap. exists x.
    split; [reflexivity|]. by apply cleaned_field_listed.
  - intros x t Hx. apply elem_of_app in Hx as [Hx | Hx];
      apply list_elem_of_fmap in Hx as (y & [= -> ->] & _); auto.
Qed.

(** C5, as the claim states it, fails: a document whose [lang] is ["en"]
    is dropped and its names are not in the table, and a document whose
    [lang] is ["__label__en"], which is not ["en"], is kept. *)
Lemma get_cleaned_data_drops_en :
  let en := ("a", {| lang := "en"; classes := Some ["Car"]; attributes := None |}) in
  let label_en := ("b", {| lang := "__label__en"; classes := Some ["Bike"];
                           attributes := None |}) in
  get_cleaned_data [en; label_en] = [label_en] /\
  rows (loader_table [en; label_en]) = [("Bike", "class")] /\
  ~ (forall item, item ∈ get_cleaned_data [en; label_en] <->
                  item ∈ [en; label_en] /\ lang item.2 = "en").
Proof.
  intros en label_en. split; [reflexivity|]. split; [reflexivity|].
  intros H. destruct (H label_en) as [Hkept _].
  assert (Hin : label_en ∈ get_cleaned_data [en; label_en]) by apply list_elem_of_here.
  apply Hkept in Hin as [_ Hlang]. discriminate Hlang.
Qed.

(** ** Pooling *)

Lemma comprehension_ok {A B : Type} (f : A -> result B) (g : A -> B) (l : list A) :
  Forall (fun x => f x = Ok (g x)) l -> comprehension f l = Ok (map g l).
Proof.
  induction 1 as [|x l Hx _ IH]; simpl; [reflexivity|].
  rewrite Hx, IH. reflexivity.
Qed.

Lemma comprehension_raise {A B : Type} (f : A -> result B) (e : exn)
    (x : A) (l : list A) :
  f x = Raise e -> comprehension f (x :: l) = Raise e.
Proof. intros Hx. simpl. rewrite Hx. reflexivity. Qed.

(** The maximum is an element of the row and bounds it from above. *)
Lemma fold_left_Qmax (xs : list Q) (x : Q) :
  In (fold_left Qmax xs x) (x :: xs) /\
  Forall (fun y => (y <= fold_left Qmax xs x)%Q) (x :: xs).
Proof.
  revert x. induction xs as [|y ys IH]; intros x; simpl.
  - split; [by left | repeat constructor; apply Qle_refl].
  - destruct (IH (Qmax x y)) as [Hin Hall]. simpl in Hin.
    apply Forall_cons in Hall as [Hm Hys]. split.
    + destruct Hin as [Hin | Hin]; [|by right; right].
      rewrite <- Hin. unfold Qmax, GenericMinMax.gmax.
      destruct (x ?= y)%Q; [by left | by right; left | by left].
    + constructor; [|constructor; [|exact Hys]].
      * eapply Qle_trans; [apply Q.le_max_l | exact Hm].
      * eapply Qle_trans; [apply Q.le_max_r | exact Hm].
Qed.

(** The minimum is an element of the row and bounds it from below. *)
Lemma fold_left_Qmin (xs : list Q) (x : Q) :
  In (fold_left Qmin xs x) (x :: xs) /\
  Forall (fun y => (fold_left Qmin xs x <= y)%Q) (x :: xs).
Proof.
  revert x. induction xs as [|y ys IH]; intros x; simpl.
  - split; [by left | repeat constructor; apply Qle_refl].
  - destruct (IH (Qmin x y)) as [Hin Hall]. simpl in Hin.
    apply Forall_cons in Hall as [Hm Hys]. split.
    + destruct Hin as [Hin | Hin]; [|by right; right].
      rewrite <- Hin. unfold Qmin, GenericMinMax.gmin.
      destruct (x ?= y)%Q; [by left | by left | by right; left].
    + constructor; [|constructor; [|exact Hys]].
      * eapply Qle_trans; [exact Hm | apply Q.le_min_l].
      * eapply Qle_trans; [exact Hm | apply Q.le_min_r].
Qed.

(** What [reduce] computes on a row that is not empty: for [Max] an
    element of the row that no element exceeds, for [Min] an element of
    the row that exceeds no element, for [Average] the value of
    [np.average]. *)
Lemma reduce_meaning {N : Numpy} (row : list Q) :
  row <> [] ->
  (In (reduce Max row) row /\ Forall (fun y => (y <= reduce Max row)%Q) row) /\
  (In (reduce Min row) row /\ Forall (fun y => (reduce Min row <= y)%Q) row) /\
  reduce Average row = np_average row.
Proof.
  destruct row as [|x xs]; [congruence|]. intros _.
  split; [apply fold_left_Qmax|]. split; [apply fold_left_Qmin|]. reflexivity.
Qed.

Lemma np_reduce_nonempty {N : Numpy} (r : reduction) (row : list Q) :
  row <> [] -> np_reduce r row = Ok (reduce r row).
Proof. destruct row; [congruence|]. by destruct r. Qed.

(** The transposition of rows of one length [dim]: one column for every
    dimension, and as long as there are rows. *)
Lemma np_transpose_columns (dim : nat) (m : list (list Q)) :
  m <> [] -> Forall (fun row => length row = dim) m ->
  np_transpose m = Ok (map (fun d => at_dimension d m) (seq 0 dim)) /\
  Forall (fun column => column <> []) (map (fun d => at_dimension d m) (seq 0 dim)).
Proof.
  intros Hm Hdim. destruct m as [|row0 m']; [congruence|]. split.
  - unfold np_transpose.
    apply Forall_cons in Hdim as [H0 Hrest].
    assert (Hcheck : forallb (fun r' => Nat.eqb (length r') (length row0)) m' = true).
    { apply forallb_forall. intros r' Hr'. apply Nat.eqb_eq.
      rewrite H0. eapply Forall_forall in Hrest; [exact Hrest|].
      by apply list_elem_of_In. }
    rewrite Hcheck, H0. reflexivity.
  - apply Forall_forall. intros column Hc.
    apply list_elem_of_In, in_map_iff in Hc as (d & <- & _). discriminate.
Qed.

(** Reducing the columns of rows of one length. *)
Lemma reduce_columns {N : Numpy} (r : reduction) (dim : nat) (m : list (list Q)) :
  m <> [] -> Forall (fun row => length row = dim) m ->
  (let* columns := np_transpose m in comprehension (np_reduce r) columns)
  = Ok (map (fun d => reduce r (at_dimension d m)) (seq 0 dim)).
Proof.
  intros Hm Hdim. destruct (np_transpose_columns dim m Hm Hdim) as [-> Hcols].
  simpl. rewrite (comprehension_ok _ (reduce r)).
  - by rewrite map_map.
  - eapply Forall_impl; [exact Hcols|]. intros column. apply np_reduce_nonempty.
Qed.

Lemma at_dimension_reduced {N : Numpy} (r : reduction) (dim d : nat) (vector : EmbeddingVector) :
  d < dim ->
  at_dimension d (map (fun sentence =>
                         map (fun d' => reduce r (at_dimension d' sentence)) (seq 0 dim))
                      vector)
  = map (fun sentence => reduce r (at_dimension d sentence)) vector.
Proof.
  intros Hd. unfold at_dimension at 1. rewrite map_map. apply map_ext. intros sentence.
  rewrite (nth_indep _ 0%Q (reduce r (at_dimension 0 sentence)))
    by (by rewrite length_map, length_seq).
  rewrite (map_nth (fun d' => reduce r (at_dimension d' sentence))).
  by rewrite seq_nth.
Qed.

(** What one branch of [pooling] returns on a well-formed vector. *)
Lemma pool_well_formed {N : Numpy} (r : reduction) (dim : nat) (vector : EmbeddingVector) :
  well_formed dim vector ->
  exists res,
    pool r (Sentences vector) = Ok res /\
    length res = dim /\
    forall d, d < dim ->
      (forall sentence, vector = [sentence] ->
          res !! d = Some (reduce r (at_dimension d sentence))) /\
      (1 < length vector ->
          res !! d = Some (reduce r (map (fun sentence =>
                                            reduce r (at_dimension d sentence))
                                         vector))).
Proof.
  intros [Hne Hsent]. unfold pool.
  assert (Hlookup : forall (g : nat -> Q) d, d < dim ->
             map g (seq 0 dim) !! d = Some (g d)).
  { intros g d Hd. change (map g (seq 0 dim)) with (g <$> seq 0 dim).
    rewrite list_lookup_fmap, lookup_seq_lt by exact Hd. reflexivity. }
  destruct (1 <? length vector)%nat eqn:Hlen.
  - apply Nat.ltb_lt in Hlen.
    rewrite (comprehension_ok _
               (fun sentence => map (fun d => reduce r (at_dimension d sentence))
                                    (seq 0 dim))).
    2:{ eapply Forall_impl; [exact Hsent|]. intros sentence [Hs Htok].
        by apply reduce_columns. }
    simpl. rewrite (reduce_columns r dim).
    + eexists. split; [reflexivity|]. split; [by rewrite length_map, length_seq|].
      intros d Hd. split.
      * intros sentence ->. simpl in Hlen. lia.
      * intros _. rewrite Hlookup by exact Hd.
        by rewrite at_dimension_reduced.
    + destruct vector; [congruence | discriminate].
    + apply Forall_forall. intros row Hrow.
      apply list_elem_of_In, in_map_iff in Hrow as (sentence & <- & _).
      by rewrite length_map, length_seq.
  - apply Nat.ltb_ge in Hlen.
    destruct vector as [|sentence [|? ?]]; [congruence| |simpl in Hlen; lia].
    apply Forall_cons in Hsent as [[Hs Htok] _].
    unfold subscript; simpl. rewrite (reduce_columns r dim) by assumption.
    eexists. split; [reflexivity|]. split; [by rewrite length_map, length_seq|].
    intros d Hd. split.
    + intros s [= <-]. by apply Hlookup.
    + simpl. lia.
Qed.

Lemma pooling_reduction {N : Numpy} (technique : string) (r : reduction) (vector : cell) :
  reduction_of technique = Some r -> pooling technique vector = pool r vector.
Proof.
  unfold reduction_of, pooling. repeat case_bool_decide; congruence.
Qed.

Lemma pooling_unsupported {N : Numpy} (technique : string) (vector : cell) :
  reduction_of technique = None ->
  pooling technique vector = Raise (ValueError not_a_pooling).
Proof.
  unfold reduction_of, pooling. repeat case_bool_decide; congruence.
Qed.

Lemma Forall2_map_diag {A B : Type} (P : A -> B -> Prop) (f : A -> B) (l : list A) :
  (forall x, In x l -> P x (f x)) -> Forall2 P l (map f l).
Proof.
  induction l as [|x l IH]; intros H; simpl; constructor.
  - apply H. by left.
  - apply IH. intros y Hy. apply H. by right.
Qed.

Lemma reduce_is_reduction {N : Numpy} (r : reduction) (row : list Q) :
  row <> [] -> is_reduction r row (reduce r row).
Proof.
  intros Hne. destruct (reduce_meaning row Hne) as (Hmax & Hmin & Haverage).
  by destruct r.
Qed.

(** C1.  For the keywords "max", "min" and "average", on a frame whose
    embedding cells are well-formed vectors of sentences, [apply_pooling]
    returns the frame it was given, with the rows it had and with every
    embedding cell replaced by one vector, of the dimension of the cell's
    token vectors.  With one sentence, the value at dimension [d] is the
    reduction of the tokens' values at [d]; with several sentences, it is
    the reduction, over the sentences, of each sentence's reduction of its
    tokens' values at [d].  The reduction is the same at both stages: for
    "max" an element that none of the values exceeds, for "min" an element
    that exceeds none of them, for "average" what [np.average] returns for
    them.  Max pooling of [[[1,5],[3,2]]] is [3,5]. *)
Theorem apply_pooling_reduces {N : Numpy} (technique : string) (r : reduction)
    (df : DataFrame) (column : list cell) :
  reduction_of technique = Some r ->
  embedding df = Some column ->
  Forall (fun c => exists vector dim, c = Sentences vector /\ well_formed dim vector)
         column ->
  (exists out after pooled,
      apply_pooling technique df = (Ok out, after) /\
      out = after /\
      rows after = rows df /\
      embedding after = Some (map Pooled pooled) /\
      Forall2
        (fun c res =>
           exists vector dim,
             c = Sentences vector /\ well_formed dim vector /\ length res = dim /\
             forall d, d < dim ->
               exists x,
                 res !! d = Some x /\
                 (forall sentence, vector = [sentence] ->
                     is_reduction r (at_dimension d sentence) x) /\
                 (1 < length vector ->
                     exists per_sentence,
                       Forall2 (fun sentence y =>
                                  is_reduction r (at_dimension d sentence) y)
                               vector per_sentence /\
                       is_reduction r per_sentence x))
        column pooled) /\
  pooling "max" (Sentences [[[1#1; 5#1]; [3#1; 2#1]]]) = Ok [3#1; 5#1].
Proof.
  intros Hr Hcolumn Hcells. split; [|reflexivity].
  unfold apply_pooling. rewrite Hcolumn. clear Hcolumn.
  assert (Hloop : exists pooled,
             comprehension (pooling technique) column = Ok pooled /\
             Forall2
               (fun c res =>
                  exists vector dim,
                    c = Sentences vector /\ well_formed dim vector /\
                    length res = dim /\
                    forall d, d < dim ->
                      exists x,
                        res !! d = Some x /\
                        (forall sentence, vector = [sentence] ->
                            is_reduction r (at_dimension d sentence) x) /\
                        (1 < length vector ->
                            exists per_sentence,
                              Forall2 (fun sentence y =>
                                         is_reduction r (at_dimension d sentence) y)
                                      vector per_sentence /\
                              is_reduction r per_sentence x))
               column pooled).
  { induction Hcells as [|c column (vector & dim & -> & Hwf) _ (pooled & Hpooled & Hall)].
    - exists []. split; [reflexivity | constructor].
    - destruct (pool_well_formed r dim vector Hwf) as (res & Hres & Hlen & Hd).
      exists (res :: pooled). split.
      + simpl. rewrite (pooling_reduction _ _ _ Hr), Hres, Hpooled. reflexivity.
      + constructor; [|exact Hall]. exists vector, dim.
        split; [reflexivity|]. split; [exact Hwf|]. split; [exact Hlen|].
        intros d Hlt. destruct (Hd d Hlt) as [Hone Hseveral].
        destruct Hwf as [Hne Hsentences].
        assert (Hrow : forall sentence, In sentence vector ->
                         is_reduction r (at_dimension d sentence)
                                      (reduce r (at_dimension d sentence))).
        { intros sentence Hin. apply reduce_is_reduction.
          rewrite Forall_forall in Hsentences.
          destruct (Hsentences sentence) as [Hsne _]; [by apply list_elem_of_In|].
          by destruct sentence. }
        destruct vector as [|sentence [|sentence' vector]]; [congruence|..].
        * exists (reduce r (at_dimension d sentence)). split; [by apply Hone|].
          split; [|simpl; lia]. intros s [= <-]. apply Hrow. by left.
        * eexists. split; [apply Hseveral; simpl; lia|].
          split; [discriminate|]. intros _.
          exists (map (fun s => reduce r (at_dimension d s))
                      (sentence :: sentence' :: vector)).
          split; [|by apply reduce_is_reduction].
          apply Forall2_map_diag. intros s Hs. by apply Hrow. }
  destruct Hloop as (pooled & -> & Hall).
  eexists _, _, pooled. by repeat split.
Qed.

(** Average pooling, without rounding, of a frame with a one-sentence and
    a two-sentence cell. *)
Lemma apply_pooling_reduces_witness :
  let N := exact_mean in
  let df := {| rows := [("Car", "class"); ("Bike seat", "attribute")];
               embedding := Some [Sentences [[[1#1; 5#1]; [3#1; 2#1]]];
                                  Sentences [[[1#1; 5#1]]; [[3#1; 2#1]; [0#1; 7#1]]]] |} in
  exists out after pooled,
    apply_pooling "average" df = (Ok out, after) /\
    out = after /\
    rows after = rows df /\
    embedding after = Some (map Pooled pooled) /\
    length pooled = 2.
Proof.
  intros N df.
  destruct (apply_pooling_reduces "average" Average df
              [Sentences [[[1#1; 5#1]; [3#1; 2#1]]];
               Sentences [[[1#1; 5#1]]; [[3#1; 2#1]; [0#1; 7#1]]]]
              eq_refl eq_refl)
    as [(out & after & pooled & Hrun & Hout & Hrows & Hcolumn & Hall) _].
  - repeat constructor.
    + exists [[[1#1; 5#1]; [3#1; 2#1]]], 2. split; [reflexivity|].
      split; [discriminate|]. repeat constructor; discriminate.
    + exists [[[1#1; 5#1]]; [[3#1; 2#1]; [0#1; 7#1]]], 2. split; [reflexivity|].
      split; [discriminate|]. repeat constructor; discriminate.
  - exists out, after, pooled. repeat split; try assumption.
    symmetry. exact (Forall2_length _ _ _ Hall).
Defined.

(** C6, as the code has it.  For a keyword other than "max", "min" and
    "average", on a frame whose embedding column has at least one cell,
    [apply_pooling] raises the [ValueError] of [pooling] and the frame is
    as it was. *)
Theorem apply_pooling_unsupported {N : Numpy} (technique : string) (df : DataFrame)
    (c : cell) (column : list cell) :
  technique <> "max" -> technique <> "min" -> technique <> "average" ->
  embedding df = Some (c :: column) ->
  apply_pooling technique df = (Raise (ValueError not_a_pooling), df).
Proof.
  intros Hmax Hmin Haverage Hcolumn. unfold apply_pooling. rewrite Hcolumn.
  rewrite (comprehension_raise _ (ValueError not_a_pooling)); [reflexivity|].
  apply pooling_unsupported. unfold reduction_of.
  by rewrite !bool_decide_eq_false_2.
Qed.

(** The keyword "median" on a frame with one record. *)
Lemma apply_pooling_unsupported_witness :
  let N := exact_mean in
  let df := {| rows := [("Car", "class")];
               embedding := Some [Sentences [[[1#1; 5#1]; [3#1; 2#1]]]] |} in
  apply_pooling "median" df = (Raise (ValueError not_a_pooling), df).
Proof.
  intros N df.
  apply (apply_pooling_unsupported "median" df
           (Sentences [[[1#1; 5#1]; [3#1; 2#1]]]) []); [discriminate.. | reflexivity].
Defined.

(** C6, as the claim states it, fails: on a frame without records the
    keyword "median" raises nothing, [pooling] is not called. *)
Lemma apply_pooling_median_empty_frame :
  let N := exact_mean in
  let df := {| rows := []; embedding := Some [] |} in
  apply_pooling "median" df = (Ok df, df) /\
  ~ (exists e, (apply_pooling "median" df).1 = Raise e).
Proof.
  intros N df. split; [reflexivity|]. intros [e He]. discriminate He.
Qed.

(** * Further properties *)

(** ** A run of an encoder that finds no directory *)

Lemma progress_map_attempted (g : string -> result EmbeddingVector)
    (names : list string) (w : world) :
  progress_map (fun text => do _ <- tell (CallCreateEmbedding text); lift (g text))
               names w
  = (comprehension g names,
     logged_all w (map CallCreateEmbedding (attempted g names))).
Proof.
  revert w. induction names as [|text names IH]; intros w.
  - simpl. unfold ret, logged_all. simpl. rewrite app_nil_r. by destruct w.
  - cbn [progress_map comprehension attempted]. unfold seq_bind at 1.
    assert (Hstep : (do _ <- tell (CallCreateEmbedding text); lift (g text)) w
                    = (g text, logged w (CallCreateEmbedding text))) by reflexivity.
    rewrite Hstep. clear Hstep. destruct (g text) as [v|e]; simpl.
    + unfold seq_bind at 1. rewrite IH.
      destruct (comprehension g names) as [vs|e]; simpl;
        unfold ret, logged_all, logged; simpl; by rewrite <- app_assoc.
    + reflexivity.
Qed.

Lemma attempted_all {A : Type} (g : string -> result A) (names : list string)
    (column : list A) :
  comprehension g names = Ok column -> attempted g names = names.
Proof.
  revert column. induction names as [|text names IH]; intros column; simpl; [done|].
  destruct (g text) as [v|e]; simpl; [|discriminate].
  destruct (comprehension g names) as [vs|e] eqn:Hrest; simpl; [|discriminate].
  intros _. f_equal. by eapply IH.
Qed.

Lemma comprehension_length {A B : Type} (f : A -> result B) (l : list A)
    (out : list B) :
  comprehension f l = Ok out -> length out = length l.
Proof.
  revert out. induction l as [|x l IH]; intros out; simpl.
  - by intros [= <-].
  - destruct (f x) as [y|e]; simpl; [|discriminate].
    destruct (comprehension f l) as [ys|e]; simpl; [|discriminate].
    intros [= <-]. simpl. f_equal. by apply IH.
Qed.

(** The whole of a run that finds no entry under its directory name. *)
Lemma encode_datasets_miss (L : libraries) (self : encoder) (save : bool)
    (dir : string) (w : world) :
  listing w !! dir = None ->
  encode_datasets L self save dir w
  = let names := name_column (frame w) in
    let w1 := logged w CallGetEmbedder in
    match get_embedder (cls self) (technique self) names with
    | Raise err => (Raise err, w1)
    | Ok e =>
        let g := fun text => create_embedding L (cls self) text e in
        let w2 := logged_all w1 (map CallCreateEmbedding (attempted g names)) in
        match comprehension g names with
        | Raise err => (Raise err, w2)
        | Ok column =>
            let table := set_embedding (frame w) (map Sentences column) in
            match rows (frame w) with
            | [] => (Raise (IndexError "single positional indexer is out-of-bounds"),
                     {| listing := listing w; frame := table; log := log w2 |})
            | _ :: _ =>
                if save then
                  if bool_decide (dir = "" \/ dir = "." \/ dir = "..")
                  then (Raise (FileExistsError dir),
                        {| listing := listing w; frame := table;
                           log := log w2 ++ [Mkdir dir] |})
                  else match mkdir_error L dir with
                       | Some err =>
                           (Raise err,
                            {| listing := listing w; frame := table;
                               log := log w2 ++ [Mkdir dir] |})
                       | None =>
                           (Ok table,
                            {| listing := <[dir := Directory (Some table)]> (listing w);
                               frame := table;
                               log := log w2 ++ [Mkdir dir; ToPickle dir] |})
                       end
                else (Ok table,
                      {| listing := listing w; frame := table; log := log w2 |})
            end
        end
    end.
Proof.
  intros Hdir. unfold encode_datasets, in_listdir. unfold seq_bind at 1. simpl.
  rewrite bool_decide_eq_false_2 by (rewrite Hdir; intros [? ?]; discriminate).
  unfold seq_bind at 1. simpl. unfold seq_bind at 1. simpl.
  unfold seq_bind at 1. unfold lift at 1.
  destruct (get_embedder _ _ _) as [e|err]; [|reflexivity].
  unfold seq_bind at 1. rewrite progress_map_attempted.
  destruct (comprehension _ _) as [column|err]; [|reflexivity].
  unfold seq_bind at 1. simpl. unfold seq_bind at 1. simpl.
  unfold seq_bind at 1. unfold lift at 1, iloc. simpl.
  destruct (rows (frame w)) as [|row rest]; [reflexivity|]. simpl.
  destruct save.
  - unfold seq_bind; simpl.
    rewrite bool_decide_eq_false_2 by (rewrite Hdir; intros [? ?]; discriminate).
    unfold mkdir, seq_bind; simpl.
    assert (Hname : bool_decide (dir = "" \/ dir = "." \/ dir = ".."
                                 \/ is_Some (listing w !! dir))
                    = bool_decide (dir = "" \/ dir = "." \/ dir = "..")).
    { apply bool_decide_ext. rewrite Hdir. split; [|tauto].
      intros [?|[?|[?|[? ?]]]]; [tauto..|discriminate]. }
    rewrite Hname. clear Hname.
    destruct (bool_decide (dir = "" \/ dir = "." \/ dir = "..")); simpl; [reflexivity|].
    destruct (mkdir_error L dir) as [err|]; simpl; [reflexivity|].
    unfold to_pickle, seq_bind; simpl. rewrite lookup_insert_eq. simpl.
    rewrite insert_insert_eq. by rewrite <- app_assoc.
  - reflexivity.
Qed.

Lemma comprehension_Forall2 {A B : Type} (f : A -> result B) (l : list A)
    (out : list B) :
  comprehension f l = Ok out <-> Forall2 (fun x y => f x = Ok y) l out.
Proof.
  revert out. induction l as [|x l IH]; intros out; simpl.
  - split; [intros [= <-]; constructor | by inversion 1].
  - split.
    + destruct (f x) as [y|e] eqn:Hx; simpl; [|discriminate].
      destruct (comprehension f l) as [ys|e] eqn:Hl; simpl; [|discriminate].
      intros [= <-]. constructor; [exact Hx | by apply IH].
    + inversion 1 as [|? y ? ys Hx Hrest]; subst. rewrite Hx. simpl.
      apply IH in Hrest. rewrite Hrest. reflexivity.
Qed.

Lemma computations_app (w : world) (evs : list event) :
  computations (logged_all w evs) = computations w ++ filter is_computation evs.
Proof. unfold computations, logged_all; simpl. apply filter_app. Qed.

Lemma filter_create_embedding (texts : list string) :
  filter is_computation (map CallCreateEmbedding texts) = map CallCreateEmbedding texts.
Proof.
  induction texts as [|text texts IH]; [reflexivity|].
  simpl. rewrite filter_cons_True by done. by rewrite IH.
Qed.

(** X1.  A run on a frame with at least one row that finds no entry
    under its directory name, whose backend loads, whose
    [create_embedding] returns for every name and, when it saves, whose
    directory name [os.mkdir] accepts, returns the frame with its rows as
    they were and, row by row, the embedding of the row's name; the frame
    of the encoder is that table afterwards, and the directory holds the
    pickled table exactly when the run saves. *)
Theorem get_embedded_dataset_computes (L : libraries) (self : encoder)
    (save : bool) (dir : string) (w : world) (e : embedder)
    (column : list EmbeddingVector) :
  get_embedding_dir (cls self) (technique self) = Ok dir ->
  listing w !! dir = None ->
  rows (frame w) <> [] ->
  (save = true -> makeable L dir) ->
  get_embedder (cls self) (technique self) (name_column (frame w)) = Ok e ->
  comprehension (fun text => create_embedding L (cls self) text e)
                (name_column (frame w)) = Ok column ->
  exists table w',
    get_embedded_dataset L self save w = (Ok table, w') /\
    frame w' = table /\
    rows table = rows (frame w) /\
    embedding table = Some (map Sentences column) /\
    Forall2 (fun row vector => create_embedding L (cls self) row.1 e = Ok vector)
            (rows (frame w)) column /\
    listing w' = (if save then <[dir := Directory (Some table)]> (listing w)
                  else listing w).
Proof.
  intros Hdir Hmiss Hrow Hmake He Hcolumn.
  rewrite (get_embedded_dataset_unfold _ _ _ _ _ Hdir).
  rewrite (encode_datasets_miss _ _ _ _ _ Hmiss). cbv zeta. rewrite He, Hcolumn.
  assert (Hrows : Forall2 (fun row vector =>
                             create_embedding L (cls self) row.1 e = Ok vector)
                          (rows (frame w)) column).
  { apply comprehension_Forall2 in Hcolumn. unfold name_column in Hcolumn.
    change (map fst (rows (frame w))) with (fst <$> rows (frame w)) in Hcolumn.
    by apply Forall2_fmap_l in Hcolumn. }
  destruct (rows (frame w)) as [|row rest] eqn:Hframe; [congruence|].
  destruct save.
  - destruct (Hmake eq_refl) as (H1 & H2 & H3 & H4).
    rewrite bool_decide_eq_false_2 by tauto. rewrite H4.
    eexists _, _. by repeat split.
  - eexists _, _. by repeat split.
Qed.

Lemma get_embedded_dataset_computes_witness :
  exists table w',
    get_embedded_dataset small_vocabulary_libraries
      (mkEncoder FlairEncoder (Some "EleutherAI/gpt-neo-1.3B")) true
      example_world = (Ok table, w') /\
    frame w' = table /\
    rows table = rows example_frame /\
    embedding table
    = Some (map Sentences [[[[1#1; 5#1]; [3#1; 2#1]]]; [[[1#1; 5#1]; [3#1; 2#1]]];
                           [[[1#1; 5#1]; [3#1; 2#1]]]]) /\
    listing w' = {[ "gpt-neo-1.3B" := Directory (Some table) ]}.
Proof.
  destruct (get_embedded_dataset_computes small_vocabulary_libraries
              (mkEncoder FlairEncoder (Some "EleutherAI/gpt-neo-1.3B")) true
              "gpt-neo-1.3B" example_world
              (TransformerWordEmbeddings (Some "EleutherAI/gpt-neo-1.3B"))
              [[[[1#1; 5#1]; [3#1; 2#1]]]; [[[1#1; 5#1]; [3#1; 2#1]]];
               [[[1#1; 5#1]; [3#1; 2#1]]]]
              eq_refl eq_refl)
    as (table & w' & Hrun & Hframe & Hrows & Hcol & _ & Hlisting).
  - discriminate.
  - intros _. by repeat split.
  - reflexivity.
  - reflexivity.
  - exists table, w'. by repeat split.
Defined.

(** X20.  On a frame without rows a run that finds no entry and whose
    backend loads raises the [IndexError] of [df.iloc[0]]: the frame has
    got an empty embedding column by then, and nothing is written to the
    directory, also with [save = True]. *)
Theorem get_embedded_dataset_empty_frame (L : libraries) (self : encoder)
    (save : bool) (dir : string) (w : world) (e : embedder) :
  get_embedding_dir (cls self) (technique self) = Ok dir ->
  listing w !! dir = None ->
  rows (frame w) = [] ->
  get_embedder (cls self) (technique self) [] = Ok e ->
  exists w',
    get_embedded_dataset L self save w
    = (Raise (IndexError "single positional indexer is out-of-bounds"), w') /\
    listing w' = listing w /\
    rows (frame w') = [] /\
    embedding (frame w') = Some [] /\
    log w' = log w ++ [CallGetEmbedder].
Proof.
  intros Hdir Hmiss Hrows He.
  rewrite (get_embedded_dataset_unfold _ _ _ _ _ Hdir).
  rewrite (encode_datasets_miss _ _ _ _ _ Hmiss). cbv zeta.
  unfold name_column. rewrite Hrows. simpl. rewrite He. simpl.
  eexists. repeat split; try done. simpl. by rewrite app_nil_r.
Qed.

Lemma get_embedded_dataset_empty_frame_witness :
  exists w',
    get_embedded_dataset example_libraries (mkEncoder FlairEncoder (Some "gpt2")) true
      {| listing := ∅; frame := {| rows := []; embedding := None |}; log := [] |}
    = (Raise (IndexError "single positional indexer is out-of-bounds"), w') /\
    listing w' = ∅ /\
    rows (frame w') = [] /\
    embedding (frame w') = Some [] /\
    log w' = [CallGetEmbedder].
Proof.
  exact (get_embedded_dataset_empty_frame example_libraries
           (mkEncoder FlairEncoder (Some "gpt2")) true "gpt2"
           {| listing := ∅; frame := {| rows := []; embedding := None |}; log := [] |}
           (TransformerWordEmbeddings (Some "gpt2")) eq_refl eq_refl eq_refl eq_refl).
Defined.

(** The backend calls of a run that finds no entry: [get_embedder], then
    [create_embedding] up to the first name on which it raises. *)
Lemma encode_datasets_miss_computations (L : libraries) (self : encoder)
    (save : bool) (dir : string) (w : world) :
  listing w !! dir = None ->
  computations (encode_datasets L self save dir w).2
  = computations w
    ++ CallGetEmbedder
       :: match get_embedder (cls self) (technique self) (name_column (frame w)) with
          | Raise _ => []
          | Ok e => map CallCreateEmbedding
                        (attempted (fun text => create_embedding L (cls self) text e)
                                   (name_column (frame w)))
          end.
Proof.
  intros Hmiss. rewrite (encode_datasets_miss _ _ _ _ _ Hmiss). cbv zeta.
  assert (Hone : computations (logged w CallGetEmbedder)
                 = computations w ++ [CallGetEmbedder]).
  { unfold computations, logged; simpl. by rewrite filter_app. }
  destruct (get_embedder _ _ _) as [e|err]; [|exact Hone].
  set (texts := attempted _ _).
  assert (Htwo : forall tail, filter is_computation tail = [] ->
             filter is_computation
               (log (logged_all (logged w CallGetEmbedder)
                                (map CallCreateEmbedding texts)) ++ tail)
             = computations w ++ CallGetEmbedder :: map CallCreateEmbedding texts).
  { intros tail Htail. rewrite filter_app, Htail, app_nil_r.
    change (computations (logged_all (logged w CallGetEmbedder)
                                     (map CallCreateEmbedding texts))
            = computations w ++ CallGetEmbedder :: map CallCreateEmbedding texts).
    rewrite computations_app, Hone, filter_create_embedding, <- app_assoc.
    reflexivity. }
  destruct (comprehension _ _) as [column|err].
  - assert (Hnone : forall r : result DataFrame, forall l f,
               computations (r, {| listing := l; frame := f;
                                   log := log (logged_all (logged w CallGetEmbedder)
                                                 (map CallCreateEmbedding texts)) |}).2
               = computations w ++ CallGetEmbedder :: map CallCreateEmbedding texts).
    { intros r l f. rewrite <- (Htwo [] eq_refl). unfold computations. simpl snd.
      by rewrite app_nil_r. }
    destruct (rows (frame w)) as [|row rest]; [apply Hnone|].
    destruct save; [destruct (bool_decide _); [|destruct (mkdir_error L dir)]|].
    + exact (Htwo [Mkdir dir] eq_refl).
    + exact (Htwo [Mkdir dir] eq_refl).
    + exact (Htwo [Mkdir dir; ToPickle dir] eq_refl).
    + apply Hnone.
  - rewrite <- (Htwo []) by reflexivity. unfold computations. simpl snd.
    by rewrite app_nil_r.
Qed.

(** X2.  In such a run [get_embedder] is called once and then
    [create_embedding] once for every name, in the order of the rows. *)
Theorem get_embedded_dataset_one_pass (L : libraries) (self : encoder)
    (save : bool) (dir : string) (w : world) (e : embedder)
    (column : list EmbeddingVector) :
  get_embedding_dir (cls self) (technique self) = Ok dir ->
  listing w !! dir = None ->
  get_embedder (cls self) (technique self) (name_column (frame w)) = Ok e ->
  comprehension (fun text => create_embedding L (cls self) text e)
                (name_column (frame w)) = Ok column ->
  computations (get_embedded_dataset L self save w).2
  = computations w
    ++ CallGetEmbedder :: map CallCreateEmbedding (name_column (frame w)).
Proof.
  intros Hdir Hmiss He Hcolumn.
  rewrite (get_embedded_dataset_unfold _ _ _ _ _ Hdir).
  rewrite (encode_datasets_miss_computations _ _ _ _ _ Hmiss), He.
  by rewrite (attempted_all _ _ _ Hcolumn).
Qed.

Lemma get_embedded_dataset_one_pass_witness :
  computations (get_embedded_dataset example_libraries
                  (mkEncoder Word2VecEncoder None) true example_world).2
  = [CallGetEmbedder; CallCreateEmbedding "Bike"; CallCreateEmbedding "Car";
     CallCreateEmbedding "speed"].
Proof.
  apply (get_embedded_dataset_one_pass example_libraries
           (mkEncoder Word2VecEncoder None) true "word2vec" example_world
           (Word2Vec ["Bike"; "Car"; "speed"])
           [[[[1#2; 1#4]]]; [[[1#2; 1#4]]]; [[[1#2; 1#4]]]]);
    reflexivity.
Defined.

(** X3.  With [save = False] a run that finds no entry writes nothing,
    whatever its outcome: the directory is as before, so the next call
    finds no entry either and calls [get_embedder] again. *)
Theorem unsaved_run_is_repeated (L : libraries) (self : encoder) (dir : string)
    (w : world) :
  get_embedding_dir (cls self) (technique self) = Ok dir ->
  listing w !! dir = None ->
  listing (get_embedded_dataset L self false w).2 = listing w /\
  forall save, exists texts,
    computations (get_embedded_dataset L self save
                    (get_embedded_dataset L self false w).2).2
    = computations (get_embedded_dataset L self false w).2
      ++ CallGetEmbedder :: map CallCreateEmbedding texts.
Proof.
  intros Hdir Hmiss.
  assert (Hlisting : listing (get_embedded_dataset L self false w).2 = listing w).
  { rewrite (get_embedded_dataset_unfold _ _ _ _ _ Hdir).
    rewrite (encode_datasets_miss _ _ _ _ _ Hmiss). cbv zeta.
    destruct (get_embedder _ _ _) as [e|err]; [|reflexivity].
    destruct (comprehension _ _) as [column|err]; [|reflexivity].
    by destruct (rows (frame w)). }
  split; [exact Hlisting|]. intros save.
  rewrite (get_embedded_dataset_unfold _ _ save _ _ Hdir).
  rewrite encode_datasets_miss_computations by (by rewrite Hlisting).
  destruct (get_embedder _ _ _) as [e|err]; [eexists; reflexivity|].
  by exists [].
Qed.

Lemma unsaved_run_is_repeated_witness :
  listing (get_embedded_dataset example_libraries
             (mkEncoder FlairEncoder (Some "gpt2")) false example_world).2
  = listing example_world /\
  forall save, exists texts,
    computations (get_embedded_dataset example_libraries
                    (mkEncoder FlairEncoder (Some "gpt2")) save
                    (get_embedded_dataset example_libraries
                       (mkEncoder FlairEncoder (Some "gpt2")) false example_world).2).2
    = computations (get_embedded_dataset example_libraries
                      (mkEncoder FlairEncoder (Some "gpt2")) false example_world).2
      ++ CallGetEmbedder :: map CallCreateEmbedding texts.
Proof.
  exact (unsaved_run_is_repeated example_libraries
           (mkEncoder FlairEncoder (Some "gpt2")) "gpt2" example_world
           eq_refl eq_refl).
Defined.

(** X4.  When [create_embedding] raises on a name, the run raises that
    exception: the names after it are not embedded, the frame keeps its
    columns and nothing is written to the directory, also with
    [save = True]. *)
Theorem failed_embedding_changes_nothing (L : libraries) (self : encoder)
    (save : bool) (dir : string) (w : world) (e : embedder) (err : exn) :
  get_embedding_dir (cls self) (technique self) = Ok dir ->
  listing w !! dir = None ->
  get_embedder (cls self) (technique self) (name_column (frame w)) = Ok e ->
  comprehension (fun text => create_embedding L (cls self) text e)
                (name_column (frame w)) = Raise err ->
  exists w',
    get_embedded_dataset L self save w = (Raise err, w') /\
    frame w' = frame w /\
    listing w' = listing w /\
    computations w'
    = computations w
      ++ CallGetEmbedder
         :: map CallCreateEmbedding
              (attempted (fun text => create_embedding L (cls self) text e)
                         (name_column (frame w))).
Proof.
  intros Hdir Hmiss He Hcolumn. eexists. split; [|split; [|split]].
  - rewrite (get_embedded_dataset_unfold _ _ _ _ _ Hdir).
    rewrite (encode_datasets_miss _ _ _ _ _ Hmiss). cbv zeta.
    rewrite He, Hcolumn. reflexivity.
  - reflexivity.
  - reflexivity.
  - pose proof (encode_datasets_miss_computations L self save dir w Hmiss) as Hc.
    rewrite (encode_datasets_miss _ _ _ _ _ Hmiss) in Hc. cbv zeta in Hc.
    rewrite He, Hcolumn in Hc. exact Hc.
Qed.

Lemma failed_embedding_changes_nothing_witness :
  exists w',
    get_embedded_dataset small_vocabulary_libraries
      (mkEncoder Word2VecEncoder None) true example_world
    = (Raise (KeyError "Car"), w') /\
    frame w' = example_frame /\
    listing w' = ∅ /\
    computations w'
    = [CallGetEmbedder; CallCreateEmbedding "Bike"; CallCreateEmbedding "Car"].
Proof.
  exact (failed_embedding_changes_nothing small_vocabulary_libraries
           (mkEncoder Word2VecEncoder None) true "word2vec" example_world
           (Word2Vec ["Bike"; "Car"; "speed"]) (KeyError "Car")
           eq_refl eq_refl eq_refl eq_refl).
Defined.

(** X5.  No run of [get_embedded_dataset], whatever its outcome, changes
    or removes an entry the directory already has, changes an entry
    other than the one of its technique, or changes the rows of the
    frame. *)
Theorem get_embedded_dataset_keeps_entries (L : libraries) (self : encoder)
    (save : bool) (w : world) :
  rows (frame (get_embedded_dataset L self save w).2) = rows (frame w) /\
  (forall name n,
      listing w !! name = Some n ->
      listing (get_embedded_dataset L self save w).2 !! name = Some n) /\
  (forall dir other,
      get_embedding_dir (cls self) (technique self) = Ok dir ->
      other <> dir ->
      listing (get_embedded_dataset L self save w).2 !! other = listing w !! other).
Proof.
  destruct (get_embedding_dir (cls self) (technique self)) as [dir|err] eqn:Hdir.
  2:{ assert (Hrun : get_embedded_dataset L self save w = (Raise err, w))
        by (unfold get_embedded_dataset, seq_bind, lift; by rewrite Hdir).
      rewrite Hrun. repeat split; try done. }
  rewrite (get_embedded_dataset_unfold _ _ _ _ _ Hdir).
  destruct (listing w !! dir) as [n0|] eqn:Hentry.
  - rewrite encode_datasets_listed by (by rewrite Hentry). by repeat split.
  - rewrite (encode_datasets_miss _ _ _ _ _ Hentry). cbv zeta.
    destruct (get_embedder _ _ _) as [e|err]; [|by repeat split].
    destruct (comprehension _ _) as [column|err]; [|by repeat split].
    destruct (rows (frame w)) as [|row rest] eqn:Hrows;
      [by simpl; rewrite Hrows; repeat split|].
    destruct save; [destruct (bool_decide _); [|destruct (mkdir_error L dir)]|];
      simpl; rewrite Hrows; try (by repeat split).
    split; [reflexivity|]. split.
    + intros name n Hname. rewrite lookup_insert_ne; [exact Hname|].
      intros <-. congruence.
    + intros dir' other [= <-] Hother. by rewrite lookup_insert_ne.
Qed.

(** ** Directory names *)

Lemma split_segments (c : ascii) (s : string) :
  Forall (fun seg => contains c seg = false) (split c s).
Proof.
  induction s as [|a rest IH]; simpl.
  - by repeat constructor.
  - destruct (Ascii.eqb a c) eqn:Hac.
    + by constructor.
    + destruct (split c rest) as [|seg segs].
      * repeat constructor. simpl. by rewrite Hac.
      * apply Forall_cons in IH as [Hseg Hsegs].
        constructor; [|exact Hsegs]. simpl. by rewrite Hac.
Qed.

Lemma split_no_separator (c : ascii) (s : string) :
  contains c s = false -> split c s = [s].
Proof.
  induction s as [|a rest IH]; simpl; [reflexivity|].
  destruct (Ascii.eqb a c); [discriminate|]. intros Hrest. by rewrite (IH Hrest).
Qed.

Lemma split_prefix (c : ascii) (prefix rest : string) :
  contains c prefix = false ->
  split c (prefix ++ String c rest)%string = prefix :: split c rest /\
  contains c (prefix ++ String c rest)%string = true.
Proof.
  induction prefix as [|a prefix IH]; simpl.
  - intros _. by rewrite Ascii.eqb_refl.
  - destruct (Ascii.eqb a c); [discriminate|]. intros Hp.
    destruct (IH Hp) as [-> ->]. done.
Qed.

(** X6.  A directory name that [get_embedding_dir] returns has no ['/']:
    the pickled table lies directly under [data_dir]. *)
Theorem embedding_dir_has_no_slash (cls : encoder_class)
    (embedding : option string) (dir : string) :
  get_embedding_dir cls embedding = Ok dir -> contains slash dir = false.
Proof.
  assert (Hinherited : forall name,
             (if contains slash name then subscript (split slash name) 1
              else Ok name) = Ok dir -> contains slash dir = false).
  { intros name. destruct (contains slash name) eqn:Hname.
    - unfold subscript.
      destruct (split slash name !! 1%nat) as [seg|] eqn:Hseg; [|discriminate].
      intros [= <-]. apply list_elem_of_lookup_2 in Hseg.
      pose proof (split_segments slash name) as Hall.
      by eapply Forall_forall in Hall.
    - by intros [= <-]. }
  destruct cls, embedding as [name|]; simpl;
    try discriminate; try apply Hinherited; by intros [= <-].
Qed.

Lemma embedding_dir_has_no_slash_witness :
  contains slash "gpt-neo-1.3B" = false.
Proof.
  exact (embedding_dir_has_no_slash FlairEncoder (Some "EleutherAI/gpt-neo-1.3B")
           "gpt-neo-1.3B" eq_refl).
Defined.

(** X7.  The directory name forgets the namespace of a technique name:
    ["ns1/model"], ["ns2/model"] and ["model"] have the directory
    ["model"].  So after a persisting run for one of them returned a
    table, a run for another one reads that table instead of computing
    its own. *)
Theorem namespaces_share_directory (ns1 ns2 model : string) :
  contains slash ns1 = false -> contains slash ns2 = false ->
  contains slash model = false ->
  get_embedding_dir FlairEncoder (Some (ns1 ++ "/" ++ model)%string) = Ok model /\
  get_embedding_dir FlairEncoder (Some (ns2 ++ "/" ++ model)%string) = Ok model /\
  get_embedding_dir FlairEncoder (Some model) = Ok model /\
  (forall L save w table w1 w2,
      get_embedded_dataset L (mkEncoder FlairEncoder (Some (ns1 ++ "/" ++ model)%string))
                           true w = (Ok table, w1) ->
      listing w2 = listing w1 ->
      get_embedded_dataset L (mkEncoder FlairEncoder (Some (ns2 ++ "/" ++ model)%string))
                           save w2
      = (Ok table, logged w2 (ReadPickle model))).
Proof.
  intros Hns1 Hns2 Hmodel.
  assert (Hkey : forall ns, contains slash ns = false ->
             get_embedding_dir FlairEncoder (Some (ns ++ "/" ++ model)%string)
             = Ok model).
  { intros ns Hns. unfold get_embedding_dir.
    destruct (split_prefix slash ns model Hns) as [Hsplit Hin].
    change (String slash model) with ("/" ++ model)%string in Hsplit, Hin.
    rewrite Hin, Hsplit, (split_no_separator _ _ Hmodel). reflexivity. }
  split; [by apply Hkey|]. split; [by apply Hkey|]. split.
  - unfold get_embedding_dir. by rewrite Hmodel.
  - intros L save w table w1 w2 Hfirst Hlisting.
    rewrite (get_embedded_dataset_unfold _ _ _ model) in Hfirst by (by apply Hkey).
    rewrite (get_embedded_dataset_unfold _ _ _ model) by (by apply Hkey).
    by eapply encode_datasets_again.
Qed.

Lemma namespaces_share_directory_witness :
  let first := get_embedded_dataset example_libraries
                 (mkEncoder FlairEncoder (Some "EleutherAI/gpt2")) true example_world in
  exists table,
    first = (Ok table, first.2) /\
    get_embedded_dataset example_libraries
      (mkEncoder FlairEncoder (Some "openai-community/gpt2")) true first.2
    = (Ok table, logged first.2 (ReadPickle "gpt2")).
Proof.
  intros first. eexists. split; [vm_compute; reflexivity|].
  apply (proj2 (proj2 (proj2 (namespaces_share_directory "EleutherAI"
                                "openai-community" "gpt2" eq_refl eq_refl eq_refl)))
           example_libraries true example_world _ first.2 first.2).
  - vm_compute; reflexivity.
  - reflexivity.
Defined.

(** ** [create_embedding] of the children *)

(** X8.  For a [FastTextEncoder] and a [Word2VecEncoder],
    [create_embedding] returns exactly when [get_vector] returns for every
    token of every sentence, and then the result has one list per
    sentence and in it one vector per token, in order; an exception of
    [get_vector], such as the [KeyError] of a token out of the vocabulary,
    makes the whole call raise. *)
Theorem create_embedding_word_vectors (L : libraries) (cls : encoder_class)
    (statement : string) (e : embedder) (vector : EmbeddingVector) :
  cls = FastTextEncoder \/ cls = Word2VecEncoder ->
  (create_embedding L cls statement e = Ok vector <->
   Forall2 (fun sentence vectors =>
              Forall2 (fun token v => wv_get_vector L e token = Ok v)
                      (word_tokenize L sentence) vectors)
           (sent_tokenize L statement) vector) /\
  (forall err,
      create_embedding L cls statement e = Raise err ->
      exists sentence token,
        sentence ∈ sent_tokenize L statement /\
        token ∈ word_tokenize L sentence /\
        wv_get_vector L e token = Raise err).
Proof.
  intros Hcls.
  assert (Hdef : create_embedding L cls statement e
                 = comprehension
                     (fun sentence =>
                        comprehension (fun token => wv_get_vector L e token)
                                      (word_tokenize L sentence))
                     (sent_tokenize L statement))
    by (destruct Hcls as [-> | ->]; reflexivity).
  rewrite Hdef. clear Hdef. split.
  - split; intros H.
    + apply comprehension_Forall2 in H.
      eapply Forall2_impl; [exact H|]. intros sentence vectors Hs.
      by apply comprehension_Forall2.
    + apply comprehension_Forall2.
      eapply Forall2_impl; [exact H|]. intros sentence vectors Hs.
      by apply comprehension_Forall2.
  - assert (Hfirst : forall {A B : Type} (f : A -> result B) (l : list A) err,
               comprehension f l = Raise err -> exists x, x ∈ l /\ f x = Raise err).
    { intros A B f l err. induction l as [|x l IH]; simpl; [discriminate|].
      destruct (f x) as [y|e'] eqn:Hx; simpl.
      - destruct (comprehension f l) as [ys|e'']; simpl; [discriminate|].
        intros [= ->]. destruct (IH eq_refl) as (x' & Hin & Hx').
        exists x'. split; [by apply list_elem_of_further | exact Hx'].
      - intros [= ->]. exists x. split; [apply list_elem_of_here | exact Hx]. }
    intros err Herr. apply Hfirst in Herr as (sentence & Hs & Herr).
    apply Hfirst in Herr as (token & Ht & Herr). by exists sentence, token.
Qed.

Lemma create_embedding_word_vectors_witness :
  create_embedding small_vocabulary_libraries Word2VecEncoder "speed"
    (Word2Vec ["Bike"; "Car"; "speed"]) = Ok [[[1#2; 1#4]]].
Proof.
  apply (proj1 (create_embedding_word_vectors small_vocabulary_libraries
                  Word2VecEncoder "speed" (Word2Vec ["Bike"; "Car"; "speed"])
                  [[[1#2; 1#4]]] (or_intror eq_refl))).
  repeat constructor.
Defined.

Lemma comprehension_stops {A B : Type} (f : A -> result B) (before : list A)
    (x : A) (rest : list A) (err : exn) :
  Forall (fun y => exists z, f y = Ok z) before ->
  f x = Raise err ->
  comprehension f (before ++ x :: rest) = Raise err.
Proof.
  intros Hbefore Hx. induction Hbefore as [|y before [z Hy] _ IH]; simpl.
  - by rewrite Hx.
  - by rewrite Hy, IH.
Qed.

(** X9.  A text in which [sent_tokenize] finds no sentence (the empty
    name) is embedded, by every child encoder, as the empty list, and
    this cell makes [apply_pooling] with "max", "min" or "average" raise
    [IndexError] when the records before it are well formed; the frame
    keeps its embedding column. *)
Theorem empty_statement_aborts_pooling {N : Numpy} (L : libraries) (cls : encoder_class)
    (statement : string) (e : embedder) (technique : string) (r : reduction)
    (df : DataFrame) (before rest : list cell) :
  cls <> GeneralEncoder ->
  sent_tokenize L statement = [] ->
  reduction_of technique = Some r ->
  Forall (fun c => exists vector dim, c = Sentences vector /\ well_formed dim vector)
         before ->
  embedding df = Some (before ++ Sentences [] :: rest) ->
  create_embedding L cls statement e = Ok [] /\
  apply_pooling technique df = (Raise (IndexError "list index out of range"), df).
Proof.
  intros Hcls Hnone Hr Hbefore Hcolumn. split.
  - destruct cls; [congruence|..]; simpl; by rewrite Hnone.
  - unfold apply_pooling. rewrite Hcolumn.
    rewrite (comprehension_stops _ _ _ _ (IndexError "list index out of range")).
    + reflexivity.
    + eapply Forall_impl; [exact Hbefore|]. intros c (vector & dim & -> & Hwf).
      rewrite (pooling_reduction _ _ _ Hr).
      destruct (pool_well_formed r dim vector Hwf) as (res & Hres & _). by exists res.
    + rewrite (pooling_reduction _ _ _ Hr). reflexivity.
Qed.

Lemma empty_statement_aborts_pooling_witness :
  let N := exact_mean in
  let df := {| rows := [("Car", "class"); ("", "attribute")];
               embedding := Some [Sentences [[[1#1; 5#1]; [3#1; 2#1]]]; Sentences []] |} in
  create_embedding small_vocabulary_libraries FastTextEncoder ""
    (FastText ["Car"; ""]) = Ok [] /\
  apply_pooling "average" df = (Raise (IndexError "list index out of range"), df).
Proof.
  intros N df.
  apply (empty_statement_aborts_pooling small_vocabulary_libraries FastTextEncoder ""
           (FastText ["Car"; ""]) "average" Average df
           [Sentences [[[1#1; 5#1]; [3#1; 2#1]]]] []);
    try reflexivity; try discriminate.
  repeat constructor. exists [[[1#1; 5#1]; [3#1; 2#1]]], 2. split; [reflexivity|].
  split; [discriminate|]. repeat constructor; discriminate.
Defined.

(** ** The loader's table and the order of the file *)

#[local] Instance str_lt_antisymm : AntiSymm (=) str_lt.
Proof.
  intros a b Hab Hba. exfalso. apply (str_lt_irrefl a). by eapply str_lt_trans.
Qed.

(** [np.unique] depends on the elements of the array only. *)
Lemma np_unique_same_elements (ar1 ar2 : list string) :
  (forall x, x ∈ ar1 <-> x ∈ ar2) -> np_unique ar1 = np_unique ar2.
Proof.
  intros Hsame. apply (StronglySorted_unique str_lt); try apply np_unique_sorted.
  apply NoDup_Permutation; try (apply strictly_sorted_NoDup, np_unique_sorted).
  intros x. by rewrite !np_unique_elem_of.
Qed.

(** X10.  The loader's table depends only on which names the documents
    tagged ["__label__en"] list as classes and which as attributes: the
    order of the documents, the order of the names in a document and
    repetitions change nothing. *)
Theorem loader_table_depends_on_names (json1 json2 : dataset) :
  (forall x, listed classes "__label__en" json1 x
             <-> listed classes "__label__en" json2 x) ->
  (forall x, listed attributes "__label__en" json1 x
             <-> listed attributes "__label__en" json2 x) ->
  loader_table json1 = loader_table json2.
Proof.
  intros Hclasses Hattributes.
  assert (Hfield : forall field,
             (forall x, listed field "__label__en" json1 x
                        <-> listed field "__label__en" json2 x) ->
             np_unique (flatten (omap (fun item => field item.2)
                                      (get_cleaned_data json1)))
             = np_unique (flatten (omap (fun item => field item.2)
                                        (get_cleaned_data json2)))).
  { intros field Hsame.
    rewrite (np_unique_same_elements _ (np_unique
               (flatten (omap (fun item => field item.2) (get_cleaned_data json2))))).
    - apply np_unique_same_elements. intros x. by rewrite np_unique_elem_of.
    - intros x. rewrite (cleaned_field_listed field json2 x), <- Hsame.
      rewrite <- (cleaned_field_listed field json1 x). by rewrite np_unique_elem_of. }
  unfold loader_table, get_df_from_data. cbv zeta.
  by rewrite (Hfield classes Hclasses), (Hfield attributes Hattributes).
Qed.

Lemma loader_table_depends_on_names_witness :
  loader_table
    [("a", {| lang := "__label__en"; classes := Some ["Car"; "Car"; "Bike"];
              attributes := Some ["speed"] |});
     ("b", {| lang := "de"; classes := Some ["Auto"]; attributes := None |})]
  = loader_table
      [("x", {| lang := "__label__en"; classes := Some ["Bike"];
                attributes := None |});
       ("y", {| lang := "__label__en"; classes := Some ["Car"];
                attributes := Some ["speed"; "speed"] |})].
Proof.
  apply loader_table_depends_on_names; intros x;
    rewrite <- !cleaned_field_listed; reflexivity.
Defined.

(** ** [DataLoader.__init__] and the attached methods *)

Lemma select_data_link_supported (dataset link : string) :
  select_data_link dataset = Ok link ->
  dataset = "lindholmen" \/ dataset = "genmymodel".
Proof.
  unfold select_data_link. repeat case_bool_decide; auto; discriminate.
Qed.

Lemma mkdir_exist_ok_keeps (dir : string) (d : disk) :
  json_files (mkdir_exist_ok dir d).2 = json_files d /\
  (forall path content,
      directories d !! path = Some content ->
      directories (mkdir_exist_ok dir d).2 !! path = Some content) /\
  (forall u, (mkdir_exist_ok dir d).1 = Ok u ->
             is_Some (directories (mkdir_exist_ok dir d).2 !! dir)).
Proof.
  unfold mkdir_exist_ok. case_bool_decide as Hfile; simpl.
  - repeat split; try done.
  - destruct (directories d !! dir) as [content|] eqn:Hdir; simpl.
    + repeat split; done.
    + split; [reflexivity|]. split.
      * intros path content Hpath.
        rewrite lookup_insert_ne; [exact Hpath|]. intros <-. congruence.
      * intros _ _. rewrite lookup_insert_eq. eauto.
Qed.


(** X12.  The nine methods [set_embeddings] attaches have nine different
    directory names, the ones listed here: no two of them share a cache. *)
Theorem set_embeddings_directories :
  Forall2 (fun accessor dir =>
             get_embedding_dir (cls accessor.2) (technique accessor.2) = Ok dir)
          set_embeddings
          ["bert-base-uncased"; "transfo-xl-wt103"; "openai-gpt"; "gpt2";
           "xlm-mlm-en-2048"; "xlnet-base-cased"; "gpt-neo-1.3B"; "fasttext";
           "word2vec"] /\
  NoDup (omap (fun accessor =>
                 match get_embedding_dir (cls accessor.2) (technique accessor.2) with
                 | Ok dir => Some dir
                 | Raise _ => None
                 end)
              set_embeddings) /\
  NoDup (map fst set_embeddings).
Proof.
  split; [repeat constructor|].
  split; apply (bool_decide_unpack _); by vm_compute.
Qed.

Lemma DataLoader_init_ok (dataset : string) (d d' : disk) (loader : DataLoader) :
  DataLoader_init dataset d = (Ok loader, d') ->
  exists link json,
    select_data_link dataset = Ok link /\
    json_files d !! link = Some json /\
    loader = {| data_link := link;
                data_dir := String.append "../embeddings/" dataset;
                data := get_cleaned_data json;
                df := loader_table json;
                accessors := set_embeddings |} /\
    d' = (mkdir_exist_ok (String.append "../embeddings/" dataset) d).2.
Proof.
  unfold DataLoader_init.
  destruct (select_data_link dataset) as [link|err]; [|discriminate].
  pose proof (mkdir_exist_ok_keeps (String.append "../embeddings/" dataset) d)
    as (Hfiles & _ & _).
  destruct (mkdir_exist_ok _ d) as [[u|err] d1]; simpl in *; [|discriminate].
  rewrite Hfiles. destruct (json_files d !! link) as [json|] eqn:Hjson; [|discriminate].
  intros [= <- <-]. by exists link, json.
Qed.

(** X13.  A table that a method of one [DataLoader] persisted is what the
    same method of a later [DataLoader] of that dataset returns, without
    computing, also when the data file has changed in between and the
    later loader's own table is another one. *)
Theorem cache_outlives_the_data (L : libraries) (dataset : string) (self : encoder)
    (d d1 d2 d3 d4 : disk) (loader1 loader1' loader2 : DataLoader)
    (table : DataFrame) :
  DataLoader_init dataset d = (Ok loader1, d1) ->
  call_accessor L loader1 self true d1 = (Ok table, loader1', d2) ->
  directories d3 = directories d2 ->
  DataLoader_init dataset d3 = (Ok loader2, d4) ->
  exists dir json,
    get_embedding_dir (cls self) (technique self) = Ok dir /\
    json_files d3 !! data_link loader2 = Some json /\
    df loader2 = loader_table json /\
    forall save,
      get_embedded_dataset L self save (encoder_world loader2 d4)
      = (Ok table, logged (encoder_world loader2 d4) (ReadPickle dir)).
Proof.
  intros Hinit1 Hcall Hdirs Hinit2.
  apply DataLoader_init_ok in Hinit1 as (link1 & json1 & _ & _ & -> & _).
  apply DataLoader_init_ok in Hinit2 as (link2 & json2 & _ & Hjson2 & -> & ->).
  unfold call_accessor in Hcall. simpl in Hcall.
  destruct (get_embedded_dataset L self true _) as [r w'] eqn:Hrun.
  injection Hcall as -> _ <-.
  destruct (get_embedding_dir (cls self) (technique self)) as [dir|err] eqn:Hdir.
  2:{ unfold get_embedded_dataset, seq_bind, lift in Hrun. rewrite Hdir in Hrun.
      discriminate. }
  exists dir, json2. split; [reflexivity|]. split; [exact Hjson2|].
  split; [reflexivity|]. intros save.
  rewrite (get_embedded_dataset_unfold _ _ _ _ _ Hdir) in Hrun.
  rewrite (get_embedded_dataset_unfold _ _ _ _ _ Hdir).
  apply encode_datasets_hit.
  apply encode_datasets_persisted in Hrun.
  unfold encoder_world. simpl.
  pose proof (mkdir_exist_ok_keeps (String.append "../embeddings/" dataset) d3)
    as (_ & Hkeep & _).
  rewrite (Hkeep (String.append "../embeddings/" dataset) (listing w')).
  - exact Hrun.
  - rewrite Hdirs. simpl. by rewrite lookup_insert_eq.
Qed.

Lemma cache_outlives_the_data_witness :
  let link := "../../data/genmymodel_uml_extracted_metadata_annotated.json" in
  let d := {| json_files :=
                {[ link := [("a", {| lang := "__label__en"; classes := Some ["Car"];
                                     attributes := None |})] ]};
              directories := ∅ |} in
  let first := DataLoader_init "genmymodel" d in
  let loader1 := {| data_link := link; data_dir := "../embeddings/genmymodel";
                    data := [("a", {| lang := "__label__en"; classes := Some ["Car"];
                                      attributes := None |})];
                    df := {| rows := [("Car", "class")]; embedding := None |};
                    accessors := set_embeddings |} in
  let self := mkEncoder FastTextEncoder None in
  let called := call_accessor example_libraries loader1 self true first.2 in
  let d3 := {| json_files :=
                 {[ link := [("b", {| lang := "__label__en"; classes := Some ["Bike"];
                                      attributes := None |})] ]};
               directories := directories called.2 |} in
  let second := DataLoader_init "genmymodel" d3 in
  let loader2 := {| data_link := link; data_dir := "../embeddings/genmymodel";
                    data := [("b", {| lang := "__label__en"; classes := Some ["Bike"];
                                      attributes := None |})];
                    df := {| rows := [("Bike", "class")]; embedding := None |};
                    accessors := set_embeddings |} in
  (get_embedded_dataset example_libraries self false (encoder_world loader2 second.2)).1
  = Ok {| rows := [("Car", "class")];
          embedding := Some [Sentences [[[1#2; 1#4]]]] |}.
Proof.
  intros link d first loader1 self called d3 second loader2.
  destruct (cache_outlives_the_data example_libraries "genmymodel" self
              d first.2 called.2 d3 second.2 loader1 called.1.2 loader2
              {| rows := [("Car", "class")];
                 embedding := Some [Sentences [[[1#2; 1#4]]]] |})
    as (dir & json & Hdir & _ & _ & Hrun).
  - vm_compute; reflexivity.
  - vm_compute; reflexivity.
  - reflexivity.
  - vm_compute; reflexivity.
  - by rewrite (Hrun false).
Defined.

(** ** Pooling of vectors that are not well formed *)

Lemma np_transpose_rows (m : list (list Q)) :
  np_transpose m
  = if forallb (fun row => Nat.eqb (length row) (length (hd [] m))) m
    then Ok (map (fun d => at_dimension d m) (seq 0 (length (hd [] m))))
    else Raise inhomogeneous_shape.
Proof.
  destruct m as [|row0 m']; [reflexivity|].
  unfold np_transpose. cbn [hd forallb]. rewrite Nat.eqb_refl. reflexivity.
Qed.

(** Transposing and reducing in one step. *)
Lemma reduce_rows {N : Numpy} (r : reduction) (m : list (list Q)) :
  (let* columns := np_transpose m in comprehension (np_reduce r) columns)
  = if forallb (fun row => Nat.eqb (length row) (length (hd [] m))) m
    then Ok (map (fun d => reduce r (at_dimension d m)) (seq 0 (length (hd [] m))))
    else Raise inhomogeneous_shape.
Proof.
  rewrite np_transpose_rows. destruct (forallb _ m); [|reflexivity]. simpl.
  rewrite (comprehension_ok _ (reduce r)); [by rewrite map_map|].
  apply Forall_forall. intros column Hc.
  apply list_elem_of_In, in_map_iff in Hc as (d & <- & Hd).
  destruct m as [|row0 m']; [by apply in_seq in Hd; simpl in Hd; lia|].
  by apply np_reduce_nonempty.
Qed.

Lemma comprehension_one_error {A B : Type} (f : A -> result B) (g : A -> B)
    (ok : A -> bool) (err : exn) (l : list A) :
  (forall x, f x = if ok x then Ok (g x) else Raise err) ->
  comprehension f l = if forallb ok l then Ok (map g l) else Raise err.
Proof.
  intros Hf. induction l as [|x l IH]; simpl; [reflexivity|].
  rewrite Hf. destruct (ok x); simpl; [|reflexivity].
  rewrite IH. by destruct (forallb ok l).
Qed.

(** X14.  With "max", "min" or "average", [pooling] of a vector with at
    least one sentence returns exactly when all token vectors of each
    sentence have one dimension and all sentences have the same; the
    result then has that dimension (a single sentence without tokens
    gives the empty vector).  In every other case it raises the
    [ValueError] of [np.array] for an inhomogeneous shape. *)
Theorem pooling_rectangular {N : Numpy} (technique : string) (r : reduction)
    (vector : EmbeddingVector) :
  reduction_of technique = Some r ->
  vector <> [] ->
  (rectangular vector = true ->
   exists res, pooling technique (Sentences vector) = Ok res /\
               length res = sentence_dimension (hd [] vector)) /\
  (rectangular vector = false ->
   pooling technique (Sentences vector) = Raise inhomogeneous_shape).
Proof.
  intros Hr Hne. rewrite (pooling_reduction _ _ _ Hr). unfold pool, rectangular.
  destruct vector as [|sentence [|sentence' vector]]; [congruence|..].
  - (* one sentence *)
    cbn [length Nat.ltb Nat.leb subscript lookup list_lookup bind hd forallb].
    rewrite reduce_rows, Nat.eqb_refl, !andb_true_r.
    unfold sentence_dimension.
    destruct (forallb (fun row => Nat.eqb (length row) (length (hd [] sentence)))
                      sentence);
      split; try discriminate; try done.
    intros _. eexists. split; [reflexivity|]. by rewrite length_map, length_seq.
  - (* several sentences *)
    remember (sentence :: sentence' :: vector) as v eqn:Hv.
    assert (Hlen : (1 <? length v)%nat = true) by (by subst v).
    rewrite Hlen.
    set (per_sentence := fun s : list token_vector =>
           map (fun d => reduce r (at_dimension d s)) (seq 0 (sentence_dimension s))).
    rewrite (comprehension_one_error _ per_sentence
               (fun s => forallb (fun token =>
                                    Nat.eqb (length token) (sentence_dimension s)) s)
               inhomogeneous_shape)
      by (intros s; apply reduce_rows).
    destruct (forallb (fun s => forallb (fun token =>
                                 Nat.eqb (length token) (sentence_dimension s)) s) v);
      [|by split].
    cbn [bind andb]. rewrite reduce_rows.
    assert (Hhd : length (hd [] (map per_sentence v)) = sentence_dimension (hd [] v)).
    { subst v. cbn [map hd]. unfold per_sentence. by rewrite length_map, length_seq. }
    assert (Hdims : forallb (fun row => Nat.eqb (length row)
                                          (length (hd [] (map per_sentence v))))
                            (map per_sentence v)
                    = forallb (fun s => Nat.eqb (sentence_dimension s)
                                                (sentence_dimension (hd [] v))) v).
    { rewrite Hhd. generalize (sentence_dimension (hd [] v)). intros n.
      clear. induction v as [|s v IH]; [reflexivity|].
      cbn [map forallb]. rewrite IH. f_equal.
      unfold per_sentence. by rewrite length_map, length_seq. }
    rewrite Hdims, Hhd.
    destruct (forallb (fun s => Nat.eqb (sentence_dimension s)
                                        (sentence_dimension (hd [] v))) v);
      split; try discriminate; try done.
    intros _. eexists. split; [reflexivity|]. by rewrite length_map, length_seq.
Qed.

Lemma pooling_rectangular_witness :
  let N := exact_mean in
  (exists res, pooling "max" (Sentences [[]; []]) = Ok res /\ length res = 0) /\
  pooling "min" (Sentences [[[1#1; 5#1]]; []]) = Raise inhomogeneous_shape.
Proof.
  intros N.
  split.
  - apply (proj1 (pooling_rectangular "max" Max [[]; []] eq_refl
                    ltac:(discriminate))); reflexivity.
  - apply (proj2 (pooling_rectangular "min" Min [[[1#1; 5#1]]; []] eq_refl
                    ltac:(discriminate))); reflexivity.
Defined.

(** ** What [apply_pooling] does to the frame *)

(** X15.  When [apply_pooling] returns, the frame it returns is the frame
    object after the call; its rows are as before and every embedding
    cell is replaced, in its row, by the vector [pooling] returns for that
    cell.  When it raises, for whatever reason, the frame is as before. *)
Theorem apply_pooling_outcome {N : Numpy} (technique : string) (df : DataFrame) :
  match apply_pooling technique df with
  | (Ok out, after) =>
      out = after /\
      rows after = rows df /\
      exists column pooled,
        embedding df = Some column /\
        embedding after = Some (map Pooled pooled) /\
        Forall2 (fun c res => pooling technique c = Ok res) column pooled
  | (Raise _, after) => after = df
  end.
Proof.
  unfold apply_pooling. destruct (embedding df) as [column|] eqn:Hcolumn; [|reflexivity].
  destruct (comprehension (pooling technique) column) as [pooled|err] eqn:Hpooled;
    [|reflexivity].
  split; [reflexivity|]. split; [reflexivity|].
  exists column, pooled. split; [reflexivity|]. split; [reflexivity|].
  by apply comprehension_Forall2.
Qed.

(** X16.  Pooling a frame that is already pooled fails: after an
    [apply_pooling] that returned, on a frame with at least one record, a
    second [apply_pooling] with "max", "min" or "average" raises a
    [TypeError], or an [IndexError] when the first pooled vector is empty,
    and leaves the pooled frame as it is. *)
Theorem apply_pooling_twice {N : Numpy} (technique1 technique2 : string) (r2 : reduction)
    (df out after : DataFrame) (c : cell) (column : list cell) :
  apply_pooling technique1 df = (Ok out, after) ->
  embedding df = Some (c :: column) ->
  reduction_of technique2 = Some r2 ->
  exists err,
    apply_pooling technique2 after = (Raise err, after) /\
    ((exists msg, err = TypeError msg) \/ (exists msg, err = IndexError msg)).
Proof.
  intros Hfirst Hcolumn Hr2. unfold apply_pooling in Hfirst. rewrite Hcolumn in Hfirst.
  destruct (comprehension (pooling technique1) (c :: column)) as [pooled|err] eqn:Hp;
    [|discriminate].
  injection Hfirst as _ <-.
  destruct pooled as [|res pooled];
    [apply comprehension_length in Hp; discriminate|].
  unfold apply_pooling. cbn [embedding set_embedding map].
  assert (Hcell : exists err, pooling technique2 (Pooled res) = Raise err /\
                    ((exists msg, err = TypeError msg)
                     \/ (exists msg, err = IndexError msg))).
  { rewrite (pooling_reduction _ _ _ Hr2). unfold pool.
    destruct (1 <? length res)%nat.
    - exists iteration_0d. split; [reflexivity|]. left. by eexists.
    - destruct res as [|x res]; simpl.
      + eexists. split; [reflexivity|]. right. by eexists.
      + exists iteration_0d. split; [reflexivity|]. left. by eexists. }
  destruct Hcell as (err & Herr & Hkind). exists err. split; [|exact Hkind].
  by rewrite (comprehension_raise _ err _ _ Herr).
Qed.

Lemma apply_pooling_twice_witness :
  let N := exact_mean in
  let df := {| rows := [("Car", "class")];
               embedding := Some [Sentences [[[1#1; 5#1]; [3#1; 2#1]]]] |} in
  let after := {| rows := [("Car", "class")];
                  embedding := Some [Pooled [3#1; 5#1]] |} in
  exists err,
    apply_pooling "min" after = (Raise err, after) /\
    ((exists msg, err = TypeError msg) \/ (exists msg, err = IndexError msg)).
Proof.
  intros N df after.
  exact (apply_pooling_twice "max" "min" Min df after after
           (Sentences [[[1#1; 5#1]; [3#1; 2#1]]]) [] eq_refl eq_refl eq_refl).
Defined.

(** ** The reductions of the two stages *)

Lemma at_dimension_all_tokens (d : nat) (vector : EmbeddingVector) :
  at_dimension d (all_tokens vector) = concat (map (at_dimension d) vector).
Proof. unfold at_dimension, all_tokens. by rewrite concat_map. Qed.

(** The maximum of a row is the element that bounds it from above, up to
    the equality of rationals; likewise the minimum. *)
Lemma reduce_Max_unique {N : Numpy} (row : list Q) (m : Q) :
  In m row -> Forall (fun y => (y <= m)%Q) row -> (m == reduce Max row)%Q.
Proof.
  intros Hin Hbound. assert (Hne : row <> []) by (by destruct row).
  destruct (reduce_meaning row Hne) as [[HMin HMbound] _].
  apply Qle_antisym.
  - rewrite Forall_forall in HMbound. apply HMbound. by apply list_elem_of_In.
  - rewrite Forall_forall in Hbound. apply Hbound. by apply list_elem_of_In.
Qed.

Lemma reduce_Min_unique {N : Numpy} (row : list Q) (m : Q) :
  In m row -> Forall (fun y => (m <= y)%Q) row -> (m == reduce Min row)%Q.
Proof.
  intros Hin Hbound. assert (Hne : row <> []) by (by destruct row).
  destruct (reduce_meaning row Hne) as [_ [[HMin HMbound] _]].
  apply Qle_antisym.
  - rewrite Forall_forall in Hbound. apply Hbound. by apply list_elem_of_In.
  - rewrite Forall_forall in HMbound. apply HMbound. by apply list_elem_of_In.
Qed.

(** The extremum of the extrema of rows is the extremum of all their
    elements. *)
Lemma reduce_extremum_concat {N : Numpy} (r : reduction) (rows : list (list Q)) :
  r <> Average -> rows <> [] -> Forall (fun row => row <> []) rows ->
  (reduce r (map (reduce r) rows) == reduce r (concat rows))%Q.
Proof.
  intros Hr Hne Hrows.
  assert (Hmapne : map (reduce r) rows <> []) by (by destruct rows).
  destruct (reduce_meaning _ Hmapne) as [[HMin HMbound] [[Hmin Hmbound] _]].
  assert (Hin : forall m, In m (map (reduce r) rows) ->
                          exists row, In row rows /\ m = reduce r row /\ row <> []).
  { intros m Hm. apply in_map_iff in Hm as (row & <- & Hrow). exists row.
    repeat split; [exact Hrow|]. rewrite Forall_forall in Hrows.
    apply Hrows. by apply list_elem_of_In. }
  destruct r; [| |congruence].
  - apply reduce_Max_unique.
    + destruct (Hin _ HMin) as (row & Hrow & -> & Hrne).
      apply in_concat. exists row. split; [exact Hrow|].
      by destruct (reduce_meaning row Hrne) as [[? _] _].
    + apply Forall_forall. intros y Hy.
      apply list_elem_of_In, in_concat in Hy as (row & Hrow & Hy).
      assert (Hrne : row <> []) by (by destruct row).
      destruct (reduce_meaning row Hrne) as [[_ Hb] _].
      eapply Qle_trans.
      * rewrite Forall_forall in Hb. apply Hb. by apply list_elem_of_In.
      * rewrite Forall_forall in HMbound. apply HMbound.
        apply list_elem_of_In, in_map_iff. by exists row.
  - apply reduce_Min_unique.
    + destruct (Hin _ Hmin) as (row & Hrow & -> & Hrne).
      apply in_concat. exists row. split; [exact Hrow|].
      by destruct (reduce_meaning row Hrne) as [_ [[? _] _]].
    + apply Forall_forall. intros y Hy.
      apply list_elem_of_In, in_concat in Hy as (row & Hrow & Hy).
      assert (Hrne : row <> []) by (by destruct row).
      destruct (reduce_meaning row Hrne) as [_ [[_ Hb] _]].
      eapply Qle_trans.
      * rewrite Forall_forall in Hmbound. apply Hmbound.
        apply list_elem_of_In, in_map_iff. by exists row.
      * rewrite Forall_forall in Hb. apply Hb. by apply list_elem_of_In.
Qed.

(** X17.  For "max" and "min" the two stages change nothing: on a
    well-formed vector the pooled value at every dimension equals, as a
    rational, the maximum, respectively minimum, over all tokens of all
    sentences at that dimension. *)
Theorem pooling_extremum_over_all_tokens {N : Numpy} (technique : string) (r : reduction)
    (dim : nat) (vector : EmbeddingVector) :
  reduction_of technique = Some r ->
  r <> Average ->
  well_formed dim vector ->
  exists res,
    pooling technique (Sentences vector) = Ok res /\
    length res = dim /\
    forall d, d < dim ->
      exists x, res !! d = Some x /\
                (x == reduce r (at_dimension d (all_tokens vector)))%Q.
Proof.
  intros Hr Hextremum Hwf. rewrite (pooling_reduction _ _ _ Hr).
  destruct (pool_well_formed r dim vector Hwf) as (res & Hres & Hlen & Hd).
  exists res. split; [exact Hres|]. split; [exact Hlen|].
  intros d Hlt. destruct (Hd d Hlt) as [Hone Hseveral].
  destruct Hwf as [Hne Hsentences].
  destruct vector as [|sentence [|sentence' vector]]; [congruence|..].
  - exists (reduce r (at_dimension d sentence)). split; [by apply Hone|].
    unfold all_tokens. simpl. by rewrite app_nil_r.
  - eexists. split; [apply Hseveral; simpl; lia|].
    rewrite at_dimension_all_tokens.
    rewrite <- (map_map (at_dimension d) (reduce r)).
    apply reduce_extremum_concat; [exact Hextremum | discriminate |].
    apply Forall_forall. intros row Hrow.
    apply list_elem_of_In, in_map_iff in Hrow as (s & <- & Hs).
    rewrite Forall_forall in Hsentences.
    destruct (Hsentences s) as [Hsne _]; [by apply list_elem_of_In|].
    by destruct s.
Qed.

Lemma pooling_extremum_over_all_tokens_witness :
  let N := exact_mean in
  exists res,
    pooling "max" (Sentences [[[1#1; 5#1]]; [[3#1; 2#1]; [0#1; 7#1]]]) = Ok res /\
    length res = 2 /\
    forall d, d < 2 ->
      exists x, res !! d = Some x /\
                (x == reduce Max (at_dimension d [[1#1; 5#1]; [3#1; 2#1]; [0#1; 7#1]]))%Q.
Proof.
  intros N.
  apply (pooling_extremum_over_all_tokens "max" Max 2
           [[[1#1; 5#1]]; [[3#1; 2#1]; [0#1; 7#1]]] eq_refl); [discriminate|].
  split; [discriminate|]. repeat constructor; discriminate.
Defined.
